(** * CodeRabbit report client, localStorage adapter and orchestration hook

    A shallow embedding of

    - [lib/types] (the declarations found in [registry/default/lib/actions.ts]),
    - the API client [CodeRabbitClient] (the version with the tRPC envelope),
    - the [LocalStorageAdapter],
    - the React hook [useCodeRabbit],

    followed by the properties of the request lifecycle, of the error
    normalisation and of the storage contract.

    Conventions.  An optional TypeScript field [f?: T] is an [option T]
    ([None] is JavaScript's [undefined]).  Inputs range over their declared
    TypeScript types; the operators of the code ([||], [&&], [??], [?.],
    property lookup, template literals) have their JavaScript meaning.
    Numbers that the code only ever uses as integers (HTTP status,
    milliseconds) are [N] or [Z]. *)

From Stdlib Require Import String Ascii ZArith NArith List Bool DecimalString Lia.
From Stdlib Require Import Sorting.Sorted Sorting.Permutation.
Import ListNotations.
Local Open Scope string_scope.

(* ------------------------------------------------------------------ *)
(** ** JavaScript odds and ends *)

(** [String(n)] for an integer. *)
Definition string_of_N (n : N) : string := NilZero.string_of_uint (N.to_uint n).
Definition string_of_Z (z : Z) : string := NilZero.string_of_int (Z.to_int z).

(** Truthiness of a string: every string but the empty one. *)
Definition truthy (s : string) : bool :=
  match s with EmptyString => false | String _ _ => true end.

(** Truthiness of a possibly undefined string. *)
Definition truthy_opt (o : option string) : bool :=
  match o with Some s => truthy s | None => false end.

(** [a || b] on strings, [a] possibly undefined. *)
Definition or_else (a : option string) (b : string) : string :=
  match a with
  | Some s => if truthy s then s else b
  | None => b
  end.

(** [Array.prototype.join]. *)
Definition join (sep : string) (l : list string) : string := String.concat sep l.

(** A thrown value: an instance of [Error] with its [name] and [message],
    or any other value, of which only [String(v)] is ever observed. *)
Inductive JsExn : Type :=
| JsError (name message : string)
| JsOther (text : string).

(** [new Error(message)]. *)
Definition new_Error (message : string) : JsExn := JsError "Error" message.

(* ------------------------------------------------------------------ *)
(** ** lib/types *)

Inductive PromptTemplate : Type :=
| DailyStandupReport | SprintReport | ReleaseNotes | Custom.

Definition PromptTemplate_text (t : PromptTemplate) : string :=
  match t with
  | DailyStandupReport => "Daily Standup Report"
  | SprintReport => "Sprint Report"
  | ReleaseNotes => "Release Notes"
  | Custom => "Custom"
  end.

Inductive FilterParameter : Type :=
| FP_REPOSITORY | FP_LABEL | FP_TEAM | FP_USER
| FP_SOURCEBRANCH | FP_TARGETBRANCH | FP_STATE.

Definition FilterParameter_text (p : FilterParameter) : string :=
  match p with
  | FP_REPOSITORY => "REPOSITORY" | FP_LABEL => "LABEL" | FP_TEAM => "TEAM"
  | FP_USER => "USER" | FP_SOURCEBRANCH => "SOURCEBRANCH"
  | FP_TARGETBRANCH => "TARGETBRANCH" | FP_STATE => "STATE"
  end.

Inductive FilterOperator : Type := OP_IN | OP_ALL | OP_NOT_IN.

Definition FilterOperator_text (o : FilterOperator) : string :=
  match o with OP_IN => "IN" | OP_ALL => "ALL" | OP_NOT_IN => "NOT_IN" end.

Inductive GroupBy : Type :=
| GB_NONE | GB_REPOSITORY | GB_LABEL | GB_TEAM | GB_USER
| GB_SOURCEBRANCH | GB_TARGETBRANCH | GB_STATE.

Definition GroupBy_text (g : GroupBy) : string :=
  match g with
  | GB_NONE => "NONE" | GB_REPOSITORY => "REPOSITORY" | GB_LABEL => "LABEL"
  | GB_TEAM => "TEAM" | GB_USER => "USER" | GB_SOURCEBRANCH => "SOURCEBRANCH"
  | GB_TARGETBRANCH => "TARGETBRANCH" | GB_STATE => "STATE"
  end.

Inductive ReportStatus : Type := pending | completed | failed.

(** The only value of [scheduleRange?: 'Dates']. *)
Inductive ScheduleRange : Type := Dates.

Definition ScheduleRange_text (s : ScheduleRange) : string :=
  match s with Dates => "Dates" end.

Module FilterConfig.
Record t : Type := mk {
    parameter : FilterParameter;
    operator : FilterOperator;
    values : list string
  }.
End FilterConfig.

Module ReportGenerateRequest.
Record t : Type := mk {
    scheduleRange : option ScheduleRange;
    from : string;
    to : string;
    prompt : option string;
    promptTemplate : option PromptTemplate;
    parameters : option (list FilterConfig.t);
    groupBy : option GroupBy;
    subgroupBy : option GroupBy;
    orgId : option string
  }.
End ReportGenerateRequest.

Module ReportResult.
Record t : Type := mk {
    group : string;
    report : string
  }.
End ReportResult.

Module StoredReport.
Record t : Type := mk {
    id : string;
    fromDate : string;
    toDate : string;
    promptTemplate : option string;
    prompt : option string;
    customPrompt : option string;
    groupBy : option string;
    subgroupBy : option string;
    orgId : option string;
    parameters : option (list FilterConfig.t);
    results : list ReportResult.t;
    status : ReportStatus;
    error : option string;
    createdAt : Z;
    durationMs : option Z
  }.
End StoredReport.

(** [Omit<StoredReport, 'id' | 'createdAt'>], the argument of [create].
    The type makes [results] and [status] mandatory; the adapter
    nevertheless defaults them with [||], so both are optional here, which
    also covers callers outside the type checker. *)
Module NewReport.
Record t : Type := mk {
    fromDate : string;
    toDate : string;
    promptTemplate : option string;
    prompt : option string;
    customPrompt : option string;
    groupBy : option string;
    subgroupBy : option string;
    orgId : option string;
    parameters : option (list FilterConfig.t);
    results : option (list ReportResult.t);
    status : option ReportStatus;
    error : option string;
    durationMs : option Z
  }.
End NewReport.

(* ------------------------------------------------------------------ *)
(** ** JSON values of the wire payload *)

#[local] Unset Elimination Schemes.
Inductive Json : Type :=
| JString (s : string)
| JArray (items : list Json)
| JObject (members : list (string * Json)).
#[local] Set Elimination Schemes.

(** Own keys of an object, in insertion order. *)
Definition keys (members : list (string * Json)) : list string :=
  map fst members.

Definition has_key (k : string) (members : list (string * Json)) : bool :=
  existsb (String.eqb k) (keys members).

Fixpoint member (k : string) (members : list (string * Json)) : option Json :=
  match members with
  | [] => None
  | (k', v) :: rest => if String.eqb k k' then Some v else member k rest
  end.

Definition FilterConfig_json (f : FilterConfig.t) : Json :=
  JObject [ ("parameter", JString (FilterParameter_text (FilterConfig.parameter f)));
            ("operator", JString (FilterOperator_text (FilterConfig.operator f)));
            ("values", JArray (map JString (FilterConfig.values f))) ].

(* ------------------------------------------------------------------ *)
(** ** The world the code runs in, and the monad of its effects *)

(** What the code does to the outside, in order. *)
Inductive Event : Type :=
| EvSetTimeout (ms : N)
| EvClearTimeout
| EvFetch (url : string) (apiKey : string) (body : Json)
| EvOnSuccess (reportId : option string)
| EvOnError (message : string).

(** [localStorage]: items by key.  What is stored under the adapter's key is
    [JSON.stringify] of an array of [StoredReport]; [JSON.parse] gives the
    array back with every undefined field dropped, which on these records
    is the identity, so an item is kept as the array it encodes. *)
Definition Items : Type := list (string * list StoredReport.t).

Fixpoint getItem (key : string) (items : Items) : option (list StoredReport.t) :=
  match items with
  | [] => None
  | (k, v) :: rest => if String.eqb key k then Some v else getItem key rest
  end.

Fixpoint removeItem (key : string) (items : Items) : Items :=
  match items with
  | [] => []
  | (k, v) :: rest =>
      if String.eqb key k then removeItem key rest else (k, v) :: removeItem key rest
  end.

Definition setItem (key : string) (v : list StoredReport.t) (items : Items) : Items :=
  (key, v) :: removeItem key items.

Record World : Type := mkWorld {
  (** [window.localStorage]; [None] outside a browser. *)
  localStorage : option Items;
  (** successive readings of [Date.now()], and how many were taken *)
  clock : nat -> Z;
  clock_reads : nat;
  (** successive values of [Math.random().toString(36).slice(2, 9)] *)
  random36 : nat -> string;
  random_reads : nat;
  (** timers set, requests sent, callbacks invoked *)
  events : list Event;
  (** the hook's React state *)
  isGenerating : bool;
  error : option string
}.

Inductive Completion (A : Type) : Type :=
| Normal (a : A)
| Throw (e : JsExn).
Arguments Normal {A} a.
Arguments Throw {A} e.

Definition Js (A : Type) : Type := World -> Completion A * World.

Definition ret {A} (a : A) : Js A := fun w => (Normal a, w).

Definition throw {A} (e : JsExn) : Js A := fun w => (Throw e, w).

Definition bind {A B} (c : Js A) (k : A -> Js B) : Js B :=
  fun w =>
    match c w with
    | (Normal a, w') => k a w'
    | (Throw e, w') => (Throw e, w')
    end.

(** [try { c } catch (e) { h e }]. *)
Definition try_catch {A} (c : Js A) (h : JsExn -> Js A) : Js A :=
  fun w =>
    match c w with
    | (Normal a, w') => (Normal a, w')
    | (Throw e, w') => h e w'
    end.

(** [try { c } finally { f }]: [f] runs either way, and its own exception,
    if any, replaces the completion of [c]. *)
Definition try_finally {A} (c : Js A) (f : Js unit) : Js A :=
  fun w =>
    match c w with
    | (r, w') =>
        match f w' with
        | (Normal _, w'') => (r, w'')
        | (Throw e, w'') => (Throw e, w'')
        end
    end.

Declare Scope js_scope.
Delimit Scope js_scope with js.
Notation "x <- c ;; k" := (bind c (fun x => k))
  (at level 61, c at next level, right associativity) : js_scope.
Notation "c ;; k" := (bind c (fun _ => k))
  (at level 61, right associativity) : js_scope.
Local Open Scope js_scope.

Definition emit (e : Event) : Js unit :=
  fun w => (Normal tt,
            mkWorld (localStorage w) (clock w) (clock_reads w)
                    (random36 w) (random_reads w)
                    (events w ++ [e]) (isGenerating w) (error w)).

(** [Date.now()]. *)
Definition Date_now : Js Z :=
  fun w => (Normal (clock w (clock_reads w)),
            mkWorld (localStorage w) (clock w) (S (clock_reads w))
                    (random36 w) (random_reads w)
                    (events w) (isGenerating w) (error w)).

(** [Math.random().toString(36).slice(2, 9)]. *)
Definition Math_random_base36 : Js string :=
  fun w => (Normal (random36 w (random_reads w)),
            mkWorld (localStorage w) (clock w) (clock_reads w)
                    (random36 w) (S (random_reads w))
                    (events w) (isGenerating w) (error w)).

Definition with_localStorage (ls : option Items) (w : World) : World :=
  mkWorld ls (clock w) (clock_reads w) (random36 w) (random_reads w)
          (events w) (isGenerating w) (error w).

Definition setIsGenerating (b : bool) : Js unit :=
  fun w => (Normal tt,
            mkWorld (localStorage w) (clock w) (clock_reads w)
                    (random36 w) (random_reads w) (events w) b (error w)).

Definition setError (e : option string) : Js unit :=
  fun w => (Normal tt,
            mkWorld (localStorage w) (clock w) (clock_reads w)
                    (random36 w) (random_reads w) (events w) (isGenerating w) e).

(* ------------------------------------------------------------------ *)
(** ** lib/client: the API client *)

(** Error response of the API, standard (flat) format. *)
Module Issue.
Record t : Type := mk { message : string }.
End Issue.

Module CodeRabbitErrorResponse.
Record t : Type := mk {
  message : string;
  code : string;
  issues : option (list Issue.t)
}.
End CodeRabbitErrorResponse.

(** Error response of the API, tRPC format: [{ error: { message, code, data? } }]. *)
Module TRPCErrorData.
Record t : Type := mk {
  code : string;
  httpStatus : N;
  path : string
}.
End TRPCErrorData.

Module TRPCError.
Record t : Type := mk {
  message : string;
  code : Z;
  data : option TRPCErrorData.t
}.
End TRPCError.

Module CodeRabbitTRPCErrorResponse.
Record t : Type := mk { error : TRPCError.t }.
End CodeRabbitTRPCErrorResponse.

(** What [response.json()] yields, by shape: no JSON at all (the promise
    rejects), an object with an [error] member, an object of the standard
    error format, or the result envelope [{ result: { data } }] with an
    array as [data].  Not represented: JSON values that are not objects,
    and objects with a [result] whose [data] is not an array (the code
    returns [result.data] unchecked, so for those it resolves with whatever
    is there, [undefined] included); statements about a returned array say
    nothing of them. *)
Inductive ResponseBody : Type :=
| NotJson (reason : string)
| TRPCErrorBody (e : CodeRabbitTRPCErrorResponse.t)
| ErrorBody (e : CodeRabbitErrorResponse.t)
| ResultBody (data : list ReportResult.t).

Module Response.
Record t : Type := mk {
  status : N;
  body : ResponseBody
}.
End Response.

(** [response.ok]: the status is in the range 200-299. *)
Definition ok (r : Response.t) : bool :=
  ((200 <=? Response.status r) && (Response.status r <=? 299))%N.

(** How [fetch] settles. *)
Inductive FetchOutcome : Type :=
| Resolved (r : Response.t)
| Rejected (e : JsExn).

(** The transport behind [fetch]: URL, API key header and body of the POST. *)
Definition Transport : Type := string -> string -> Json -> FetchOutcome.

(** The rejection of a [fetch] whose signal was aborted. *)
Definition AbortError : JsExn := JsError "AbortError" "This operation was aborted".

(** Values a property lookup on a plain object can give. *)
Inductive JsValue : Type :=
| VUndefined
| VString (s : string)
| VFunction (name : string)
| VObjectPrototype.

Definition value_truthy (v : JsValue) : bool :=
  match v with
  | VUndefined => false
  | VString s => truthy s
  | VFunction _ | VObjectPrototype => true
  end.

(** [String(v)]; the text of a built-in function is the one V8 prints. *)
Definition value_text (v : JsValue) : string :=
  match v with
  | VUndefined => "undefined"
  | VString s => s
  | VFunction name => "function " ++ name ++ "() { [native code] }"
  | VObjectPrototype => "[object Object]"
  end.

(** The members every object literal inherits from [Object.prototype]. *)
Definition Object_prototype : list (string * JsValue) :=
  [ ("constructor", VFunction "Object");
    ("__defineGetter__", VFunction "__defineGetter__");
    ("__defineSetter__", VFunction "__defineSetter__");
    ("hasOwnProperty", VFunction "hasOwnProperty");
    ("__lookupGetter__", VFunction "__lookupGetter__");
    ("__lookupSetter__", VFunction "__lookupSetter__");
    ("isPrototypeOf", VFunction "isPrototypeOf");
    ("propertyIsEnumerable", VFunction "propertyIsEnumerable");
    ("toString", VFunction "toString");
    ("valueOf", VFunction "valueOf");
    ("__proto__", VObjectPrototype);
    ("toLocaleString", VFunction "toLocaleString") ].

Fixpoint assoc {V} (k : string) (l : list (string * V)) : option V :=
  match l with
  | [] => None
  | (k', v) :: rest => if String.eqb k k' then Some v else assoc k rest
  end.

(** [obj[key]] on an object literal with the given own string members. *)
Definition property (own : list (string * string)) (key : string) : JsValue :=
  match assoc key own with
  | Some s => VString s
  | None =>
      match assoc key Object_prototype with
      | Some v => v
      | None => VUndefined
      end
  end.

Module Client.

Definition API_BASE_URL : string := "https://api.coderabbit.ai/api".
Definition API_VERSION : string := "v1".
Definition API_TIMEOUT_MS : N := 600000.

(** User-friendly error messages for known error codes. *)
Definition ERROR_MESSAGES : list (string * string) :=
  [ ("UNAUTHORIZED",
     "CodeRabbit Pro subscription required. Please upgrade your plan at https://coderabbit.ai to use the Reports API.");
    ("FORBIDDEN",
     "Access denied. Please check your API key permissions.");
    ("TOO_MANY_REQUESTS",
     "Rate limit exceeded. Please wait a few minutes before trying again.");
    ("BAD_REQUEST",
     "Invalid request. Please check your report parameters.") ].

Module CodeRabbitClientConfig.
Record t : Type := mk {
  apiKey : option string;
  baseUrl : option string;
  timeout : option N
}.
End CodeRabbitClientConfig.

(** The fields of a [CodeRabbitClient]. *)
Module CodeRabbitClient.
Record t : Type := mk {
  apiKey : option string;
  baseUrl : string;
  timeout : N
}.
End CodeRabbitClient.

(** Where an API key can come from: [process.env] and [Deno.env], each
    absent or giving the variable or nothing. *)
Record Host : Type := mkHost {
  process_env : option (string -> option string);
  Deno_env : option (string -> option string)
}.

Definition getApiKeyFromEnv (host : Host) : option string :=
  match process_env host with
  | Some env => env "CODERABBIT_API_KEY"
  | None =>
      match Deno_env host with
      | Some env => env "CODERABBIT_API_KEY"
      | None => None
      end
  end.

(** [a ?? b]. *)
Definition nullish {A} (a : option A) (b : A) : A :=
  match a with Some x => x | None => b end.

(** The constructor; [config?.f] of an absent [config] is undefined. *)
Definition constructor (host : Host) (config : option CodeRabbitClientConfig.t)
  : CodeRabbitClient.t :=
  let field {A} (f : CodeRabbitClientConfig.t -> option A) : option A :=
    match config with Some c => f c | None => None end in
  CodeRabbitClient.mk
    (match field CodeRabbitClientConfig.apiKey with
     | Some k => Some k
     | None => getApiKeyFromEnv host
     end)
    (nullish (field CodeRabbitClientConfig.baseUrl) API_BASE_URL)
    (nullish (field CodeRabbitClientConfig.timeout) API_TIMEOUT_MS).

Definition createCodeRabbitClient := constructor.

Definition isConfigured (this : CodeRabbitClient.t) : bool :=
  match CodeRabbitClient.apiKey this with
  | Some k => (0 <? String.length k)%nat
  | None => false
  end.

(** The text of [timeout / 1000] for a whole number of milliseconds: the
    quotient, then the remainder as a fraction without trailing zeros.
    That is what JavaScript prints for timeouts of up to fifteen digits,
    and for whole seconds below 2^53 ms; beyond, JavaScript prints the
    shortest digits that read back as the same double, and from 1e21 on
    the exponent form, which this text does not follow. *)
Definition seconds_text (ms : N) : string :=
  let q := (ms / 1000)%N in
  let r := (ms mod 1000)%N in
  let d1 := string_of_N (r / 100) in
  let d2 := string_of_N ((r / 10) mod 10) in
  let d3 := string_of_N (r mod 10) in
  if (r =? 0)%N then string_of_N q
  else if (r mod 100 =? 0)%N then string_of_N q ++ "." ++ d1
  else if (r mod 10 =? 0)%N then string_of_N q ++ "." ++ d1 ++ d2
  else string_of_N q ++ "." ++ d1 ++ d2 ++ d3.

(** [...(v && { key: v })]: the member is spread in when [v] is truthy. *)
Definition spread (key : string) (v : option string) : list (string * Json) :=
  match v with
  | Some s => if truthy s then [(key, JString s)] else []
  | None => []
  end.

(** The request body matching the API format. *)
Definition requestBody (request : ReportGenerateRequest.t) : list (string * Json) :=
  [ ("from", JString (ReportGenerateRequest.from request));
    ("to", JString (ReportGenerateRequest.to request));
    ("scheduleRange",
     JString (ScheduleRange_text
                (nullish (ReportGenerateRequest.scheduleRange request) Dates)));
    ("parameters",
     JArray (map FilterConfig_json
                 (nullish (ReportGenerateRequest.parameters request) []))) ]
  ++ spread "prompt" (ReportGenerateRequest.prompt request)
  ++ spread "promptTemplate"
       (option_map PromptTemplate_text (ReportGenerateRequest.promptTemplate request))
  ++ spread "groupBy" (option_map GroupBy_text (ReportGenerateRequest.groupBy request))
  ++ spread "subgroupBy"
       (option_map GroupBy_text (ReportGenerateRequest.subgroupBy request))
  ++ spread "orgId" (ReportGenerateRequest.orgId request).

(** [statusCodeMap[response.status]]. *)
Definition statusCodeMap (status : N) : option string :=
  if (status =? 401)%N then Some "UNAUTHORIZED"
  else if (status =? 403)%N then Some "FORBIDDEN"
  else if (status =? 429)%N then Some "TOO_MANY_REQUESTS"
  else if (status =? 400)%N then Some "BAD_REQUEST"
  else None.

Definition request_failed (status : N) : string :=
  "API request failed with status " ++ string_of_N status.

(** [code && ERROR_MESSAGES[code]]: the left operand when it is falsy, the
    looked-up member otherwise. *)
Definition friendly (code : option string) : JsValue :=
  match code with
  | Some c => if truthy c then property ERROR_MESSAGES c else VString c
  | None => VUndefined
  end.

(** The tRPC branch: [{ error: { message, code, data } }].  Where the guard
    holds, [ERROR_MESSAGES[errorCode]] is the value the guard looked up. *)
Definition trpc_error (status : N) (trpcError : CodeRabbitTRPCErrorResponse.t) : JsExn :=
  let err := CodeRabbitTRPCErrorResponse.error trpcError in
  let errorCode := option_map TRPCErrorData.code (TRPCError.data err) in
  if value_truthy (friendly errorCode)
  then new_Error (value_text (friendly errorCode))
  else new_Error (or_else (Some (TRPCError.message err)) (request_failed status)).

(** The standard branch: [{ message, code, issues }]; either field is
    undefined in a body of another shape. *)
Definition std_error (status : N) (message : option string)
    (issues : option (list Issue.t)) : JsExn :=
  let mappedCode := statusCodeMap status in
  if value_truthy (friendly mappedCode)
  then new_Error (value_text (friendly mappedCode))
  else
    let errorMessage := or_else message (request_failed status) in
    let details := option_map (fun l => join ", " (map Issue.message l)) issues in
    new_Error (if truthy_opt details
               then errorMessage ++ ": " ++ nullish details ""
               else errorMessage).

(** [await response.json()]. *)
Definition response_json (response : Response.t) : Js ResponseBody :=
  match Response.body response with
  | NotJson reason => throw (JsError "SyntaxError" reason)
  | b => ret b
  end.

(** [await fetch(url, { method: 'POST', headers, body, signal })]. *)
Definition do_fetch (fetch : Transport) (url apiKey : string) (body : Json)
  : Js Response.t :=
  emit (EvFetch url apiKey body) ;;
  match fetch url apiKey body with
  | Resolved r => ret r
  | Rejected e => throw e
  end.

Definition not_configured : string :=
  "CODERABBIT_API_KEY not configured. Set environment variable or pass apiKey in config.".

Definition timed_out (this : CodeRabbitClient.t) : string :=
  "CodeRabbit report generation timed out after "
  ++ seconds_text (CodeRabbitClient.timeout this) ++ "s".

(** The URL of the POST: [`${this.baseUrl}/${API_VERSION}/report.generate`]. *)
Definition endpoint (this : CodeRabbitClient.t) : string :=
  CodeRabbitClient.baseUrl this ++ "/" ++ API_VERSION ++ "/report.generate".

(** Generate developer activity report. *)
Definition generateReport (fetch : Transport) (this : CodeRabbitClient.t)
    (request : ReportGenerateRequest.t) : Js (list ReportResult.t) :=
  if negb (isConfigured this) then throw (new_Error not_configured)
  else
    emit (EvSetTimeout (CodeRabbitClient.timeout this)) ;;
    try_catch
      (response <- do_fetch fetch (endpoint this)
                     (nullish (CodeRabbitClient.apiKey this) "")
                     (JObject (requestBody request)) ;;
       emit EvClearTimeout ;;
       if negb (ok response) then
         errorData <- response_json response ;;
         match errorData with
         | TRPCErrorBody trpcError =>
             throw (trpc_error (Response.status response) trpcError)
         | ErrorBody stdError =>
             throw (std_error (Response.status response)
                      (Some (CodeRabbitErrorResponse.message stdError))
                      (CodeRabbitErrorResponse.issues stdError))
         | _ => throw (std_error (Response.status response) None None)
         end
       else
         responseData <- response_json response ;;
         match responseData with
         | ResultBody data => ret data
         | _ => throw (JsError "TypeError"
                         "Cannot read properties of undefined (reading 'data')")
         end)
      (fun error =>
         emit EvClearTimeout ;;
         match error with
         | JsError name _ =>
             if String.eqb name "AbortError"
             then throw (new_Error (timed_out this))
             else throw error
         | JsOther _ => throw error
         end).

End Client.

(* ------------------------------------------------------------------ *)
(** ** lib/storage-adapter and lib/storage-localstorage *)

(** The operations of a storage adapter the hook relies on. *)
Module ReportStorageAdapter.
Record t : Type := mk {
  create : NewReport.t -> Js string;
  updateSuccess : string -> list ReportResult.t -> Z -> Js unit;
  updateFailure : string -> string -> Z -> Js unit;
  get : string -> Js (option StoredReport.t);
  delete : string -> Js unit
}.
End ReportStorageAdapter.

Module LocalStorageAdapter.

Definition default_key : string := "coderabbit:reports".

Definition not_available : string :=
  "localStorage is not available in this environment. "
  ++ "Ensure this adapter is only used on the client side (e.g., inside useEffect).".

(** Ensure we are running in browser context. *)
Definition ensureBrowser : Js Items :=
  fun w =>
    match localStorage w with
    | Some items => (Normal items, w)
    | None => (Throw (new_Error not_available), w)
    end.

Definition getReports (key : string) : Js (list StoredReport.t) :=
  items <- ensureBrowser ;;
  ret (match getItem key items with Some reports => reports | None => [] end).

Definition saveReports (key : string) (reports : list StoredReport.t) : Js unit :=
  items <- ensureBrowser ;;
  fun w => (Normal tt, with_localStorage (Some (setItem key reports items)) w).

(** [reports.find((r) => r.id === id)]. *)
Definition find (id : string) (reports : list StoredReport.t) : option StoredReport.t :=
  List.find (fun r => String.eqb (StoredReport.id r) id) reports.

(** The array after an assignment through the object [find] returned: the
    first element with that id is the one that changes. *)
Fixpoint assign (id : string) (f : StoredReport.t -> StoredReport.t)
    (reports : list StoredReport.t) : list StoredReport.t :=
  match reports with
  | [] => []
  | r :: rest =>
      if String.eqb (StoredReport.id r) id then f r :: rest
      else r :: assign id f rest
  end.

Definition create (key : string) (data : NewReport.t) : Js string :=
  reports <- getReports key ;;
  now <- Date_now ;;
  suffix <- Math_random_base36 ;;
  let id := "report_" ++ string_of_Z now ++ "_" ++ suffix in
  createdAt <- Date_now ;;
  let report :=
    StoredReport.mk id
      (NewReport.fromDate data) (NewReport.toDate data)
      (NewReport.promptTemplate data) (NewReport.prompt data)
      (NewReport.customPrompt data)
      (NewReport.groupBy data) (NewReport.subgroupBy data)
      (NewReport.orgId data) (NewReport.parameters data)
      (match NewReport.results data with Some rs => rs | None => [] end)
      (match NewReport.status data with Some s => s | None => pending end)
      (NewReport.error data)
      createdAt
      (NewReport.durationMs data) in
  saveReports key (reports ++ [report]) ;;
  ret id.

Definition set_success (results : list ReportResult.t) (durationMs : Z)
    (r : StoredReport.t) : StoredReport.t :=
  StoredReport.mk (StoredReport.id r)
    (StoredReport.fromDate r) (StoredReport.toDate r)
    (StoredReport.promptTemplate r) (StoredReport.prompt r)
    (StoredReport.customPrompt r)
    (StoredReport.groupBy r) (StoredReport.subgroupBy r)
    (StoredReport.orgId r) (StoredReport.parameters r)
    results completed (StoredReport.error r)
    (StoredReport.createdAt r) (Some durationMs).

Definition set_failure (error : string) (durationMs : Z)
    (r : StoredReport.t) : StoredReport.t :=
  StoredReport.mk (StoredReport.id r)
    (StoredReport.fromDate r) (StoredReport.toDate r)
    (StoredReport.promptTemplate r) (StoredReport.prompt r)
    (StoredReport.customPrompt r)
    (StoredReport.groupBy r) (StoredReport.subgroupBy r)
    (StoredReport.orgId r) (StoredReport.parameters r)
    (StoredReport.results r) failed (Some error)
    (StoredReport.createdAt r) (Some durationMs).

Definition not_found (id : string) : JsExn := new_Error ("Report not found: " ++ id).

Definition updateSuccess (key id : string) (results : list ReportResult.t)
    (durationMs : Z) : Js unit :=
  reports <- getReports key ;;
  match find id reports with
  | None => throw (not_found id)
  | Some _ => saveReports key (assign id (set_success results durationMs) reports)
  end.

Definition updateFailure (key id : string) (error : string) (durationMs : Z)
  : Js unit :=
  reports <- getReports key ;;
  match find id reports with
  | None => throw (not_found id)
  | Some _ => saveReports key (assign id (set_failure error durationMs) reports)
  end.

Definition get (key id : string) : Js (option StoredReport.t) :=
  reports <- getReports key ;;
  ret (find id reports).

Definition delete (key id : string) : Js unit :=
  reports <- getReports key ;;
  saveReports key
    (filter (fun r => negb (String.eqb (StoredReport.id r) id)) reports).

(** [Array.prototype.sort] is stable, and for a consistent comparator its
    result is the stable sorted arrangement of the array; insertion from the
    right computes it.  An element goes before the first one it does not
    compare greater than. *)
Fixpoint insert_by {A} (cmp : A -> A -> Z) (x : A) (l : list A) : list A :=
  match l with
  | [] => [x]
  | y :: rest => if (cmp x y <=? 0)%Z then x :: y :: rest else y :: insert_by cmp x rest
  end.

Fixpoint sort_by {A} (cmp : A -> A -> Z) (l : list A) : list A :=
  match l with
  | [] => []
  | x :: rest => insert_by cmp x (sort_by cmp rest)
  end.

(** The comparator of [list]: [(a, b) => b.createdAt - a.createdAt]. *)
Definition newest_first (a b : StoredReport.t) : Z :=
  (StoredReport.createdAt b - StoredReport.createdAt a)%Z.

(** An index argument of [slice], relative to the length: a negative one
    counts from the end. *)
Definition relative_index (len k : Z) : Z :=
  if (k <? 0)%Z then Z.max (len + k) 0 else Z.min k len.

(** [Array.prototype.slice(start, end)] for integer arguments. *)
Definition slice {A} (start stop : Z) (l : list A) : list A :=
  let len := Z.of_nat (length l) in
  let from := relative_index len start in
  let to := relative_index len stop in
  firstn (Z.to_nat (to - from)) (skipn (Z.to_nat from) l).

Module ListOptions.
Record t : Type := mk {
  limit : option Z;
  offset : option Z
}.
End ListOptions.

Module ListReportsResponse.
Record t : Type := mk {
  reports : list StoredReport.t;
  total : nat
}.
End ListReportsResponse.

Definition list (key : string) (options : option ListOptions.t)
  : Js ListReportsResponse.t :=
  reports <- getReports key ;;
  let sorted := sort_by newest_first reports in
  let total := length sorted in
  match options with
  | Some o =>
      let start := match ListOptions.offset o with Some n => n | None => 0%Z end in
      let stop :=
        (start + match ListOptions.limit o with
                 | Some n => n
                 | None => Z.of_nat (length reports)
                 end)%Z in
      ret (ListReportsResponse.mk (slice start stop sorted) total)
  | None => ret (ListReportsResponse.mk sorted total)
  end.

(** Clear all reports: [localStorage.removeItem(this.key)]. *)
Definition clear (key : string) : Js unit :=
  items <- ensureBrowser ;;
  fun w => (Normal tt, with_localStorage (Some (removeItem key items)) w).

(** The adapter as a [ReportStorageAdapter]. *)
Definition adapter (key : string) : ReportStorageAdapter.t :=
  ReportStorageAdapter.mk (create key) (updateSuccess key) (updateFailure key)
    (get key) (delete key).

End LocalStorageAdapter.

(* ------------------------------------------------------------------ *)
(** ** hooks/use-coderabbit: the orchestration hook *)

Module UseCodeRabbit.

Module Options.
Record t : Type := mk {
  apiKey : option string;
  storage : option ReportStorageAdapter.t;
  onSuccess : option (option string -> Js unit);
  onError : option (string -> Js unit)
}.
End Options.

(** [options?.f]. *)
Definition field {A} (options : option Options.t) (f : Options.t -> option A)
  : option A :=
  match options with Some o => f o | None => None end.

(** [err instanceof Error ? err.message : String(err)]. *)
Definition message_of (err : JsExn) : string :=
  match err with
  | JsError _ message => message
  | JsOther text => text
  end.

(** The completion of [c], reified: what a [catch] clause gets to see. *)
Definition attempt {A} (c : Js A) : Js (Completion A) :=
  fun w => match c w with (r, w') => (Normal r, w') end.

(** [options.storage && reportId]: the adapter to update and the id, when
    there is an adapter and the id is a non-empty string. *)
Definition stored (options : option Options.t) (reportId : option string)
  : option (ReportStorageAdapter.t * string) :=
  match field options Options.storage, reportId with
  | Some st, Some id => if truthy id then Some (st, id) else None
  | _, _ => None
  end.

Section WithClient.

(** [client.generateReport]. *)
Variable client : ReportGenerateRequest.t -> Js (list ReportResult.t).
Variable options : option Options.t.

(** Create pending record if storage available. *)
Definition create_pending (request : ReportGenerateRequest.t) : Js (option string) :=
  match field options Options.storage with
  | Some st =>
      id <- ReportStorageAdapter.create st
              (NewReport.mk
                 (ReportGenerateRequest.from request)
                 (ReportGenerateRequest.to request)
                 (option_map PromptTemplate_text
                    (ReportGenerateRequest.promptTemplate request))
                 (ReportGenerateRequest.prompt request)
                 None
                 (option_map GroupBy_text (ReportGenerateRequest.groupBy request))
                 (option_map GroupBy_text (ReportGenerateRequest.subgroupBy request))
                 (ReportGenerateRequest.orgId request)
                 (ReportGenerateRequest.parameters request)
                 (Some [])
                 (Some pending)
                 None
                 None) ;;
      ret (Some id)
  | None => ret None
  end.

(** The rest of the [try] block, once [reportId] is assigned. *)
Definition generate_and_store (startTime : Z) (reportId : option string)
    (request : ReportGenerateRequest.t) : Js (option string) :=
  results <- client request ;;
  now <- Date_now ;;
  let durationMs := (now - startTime)%Z in
  match stored options reportId with
  | Some (st, id) => ReportStorageAdapter.updateSuccess st id results durationMs
  | None => ret tt
  end ;;
  match field options Options.onSuccess with
  | Some callback => emit (EvOnSuccess reportId) ;; callback reportId
  | None => ret tt
  end ;;
  ret reportId.

(** The [catch] block, with the value [reportId] has when it is entered. *)
Definition handle_failure (startTime : Z) (reportId : option string) (err : JsExn)
  : Js (option string) :=
  now <- Date_now ;;
  let durationMs := (now - startTime)%Z in
  let errorMsg := message_of err in
  setError (Some errorMsg) ;;
  match stored options reportId with
  | Some (st, id) => ReportStorageAdapter.updateFailure st id errorMsg durationMs
  | None => ret tt
  end ;;
  match field options Options.onError with
  | Some callback => emit (EvOnError errorMsg) ;; callback errorMsg
  | None => ret tt
  end ;;
  ret None.

(** [reportId] is [null] until [create] has returned; an exception of
    [create] therefore reaches the handler with [null], a later one with
    the id. *)
Definition generateReport (request : ReportGenerateRequest.t) : Js (option string) :=
  setIsGenerating true ;;
  setError None ;;
  startTime <- Date_now ;;
  try_finally
    (created <- attempt (create_pending request) ;;
     match created with
     | Throw err => handle_failure startTime None err
     | Normal reportId =>
         try_catch (generate_and_store startTime reportId request)
                   (handle_failure startTime reportId)
     end)
    (setIsGenerating false).

End WithClient.

(** The client the hook builds: [createCodeRabbitClient({ apiKey: options?.apiKey })]. *)
Definition hook_client (host : Client.Host) (fetch : Transport)
    (options : option Options.t) : ReportGenerateRequest.t -> Js (list ReportResult.t) :=
  Client.generateReport fetch
    (Client.createCodeRabbitClient host
       (Some (Client.CodeRabbitClientConfig.mk (field options Options.apiKey) None None))).

End UseCodeRabbit.

(* ------------------------------------------------------------------ *)
(** ** Observations used by the statements *)

(** The requests sent so far. *)
Definition fetches (evs : list Event) : list (string * string * Json) :=
  flat_map (fun e => match e with
                     | EvFetch url apiKey body => [(url, apiKey, body)]
                     | _ => []
                     end) evs.

(** The arguments of the error callback's invocations so far. *)
Definition onError_calls (evs : list Event) : list string :=
  flat_map (fun e => match e with EvOnError m => [m] | _ => [] end) evs.

(** The array stored under [key]; empty when there is none. *)
Definition reports_of (key : string) (w : World) : list StoredReport.t :=
  match localStorage w with
  | Some items => match getItem key items with Some l => l | None => [] end
  | None => []
  end.

Definition is_some {A} (o : option A) : bool :=
  match o with Some _ => true | None => false end.

(** Whether a request sets the field of the given name: the reading of
    "present in the request" that the payload is compared with. *)
Definition request_sets (request : ReportGenerateRequest.t) (k : string) : bool :=
  if String.eqb k "from" then true
  else if String.eqb k "to" then true
  else if String.eqb k "scheduleRange"
       then is_some (ReportGenerateRequest.scheduleRange request)
  else if String.eqb k "prompt" then is_some (ReportGenerateRequest.prompt request)
  else if String.eqb k "promptTemplate"
       then is_some (ReportGenerateRequest.promptTemplate request)
  else if String.eqb k "parameters"
       then is_some (ReportGenerateRequest.parameters request)
  else if String.eqb k "groupBy" then is_some (ReportGenerateRequest.groupBy request)
  else if String.eqb k "subgroupBy"
       then is_some (ReportGenerateRequest.subgroupBy request)
  else if String.eqb k "orgId" then is_some (ReportGenerateRequest.orgId request)
  else false.

(** A request with the two dates and nothing else. *)
Definition january : ReportGenerateRequest.t :=
  ReportGenerateRequest.mk None "2024-01-01" "2024-01-31" None None None None None None.

(** The names of the members a payload can have. *)
Definition payload_fields : list string :=
  [ "from"; "to"; "scheduleRange"; "parameters";
    "prompt"; "promptTemplate"; "groupBy"; "subgroupBy"; "orgId" ].

(** *** Messages of the error normalisation, as statements give them *)

Definition UNAUTHORIZED_text : string :=
  "CodeRabbit Pro subscription required. Please upgrade your plan at https://coderabbit.ai to use the Reports API.".
Definition FORBIDDEN_text : string :=
  "Access denied. Please check your API key permissions.".
Definition TOO_MANY_REQUESTS_text : string :=
  "Rate limit exceeded. Please wait a few minutes before trying again.".
Definition BAD_REQUEST_text : string :=
  "Invalid request. Please check your report parameters.".

(** The friendly string of a known code. *)
Definition known_code_text (code : string) : option string :=
  if String.eqb code "UNAUTHORIZED" then Some UNAUTHORIZED_text
  else if String.eqb code "FORBIDDEN" then Some FORBIDDEN_text
  else if String.eqb code "TOO_MANY_REQUESTS" then Some TOO_MANY_REQUESTS_text
  else if String.eqb code "BAD_REQUEST" then Some BAD_REQUEST_text
  else None.

(** The known code of an HTTP status. *)
Definition status_code (status : N) : option string :=
  if (status =? 401)%N then Some "UNAUTHORIZED"
  else if (status =? 403)%N then Some "FORBIDDEN"
  else if (status =? 429)%N then Some "TOO_MANY_REQUESTS"
  else if (status =? 400)%N then Some "BAD_REQUEST"
  else None.

Definition generic_text (status : N) : string :=
  "API request failed with status " ++ string_of_N status.

(** Flat shape, in the words of the specification: the friendly string of
    the status when there is one; otherwise the raw [message], followed by
    [": "] and the comma-joined messages of the issues when there are
    issues. *)
Definition claimed_flat_message (status : N) (e : CodeRabbitErrorResponse.t) : string :=
  match match status_code status with
        | Some c => known_code_text c
        | None => None
        end with
  | Some text => text
  | None =>
      match CodeRabbitErrorResponse.issues e with
      | Some (i :: l) =>
          CodeRabbitErrorResponse.message e ++ ": "
          ++ join ", " (map Issue.message (i :: l))
      | _ => CodeRabbitErrorResponse.message e
      end
  end.

(** Flat shape, with the two fallbacks of the code: an empty [message]
    gives way to the generic text, and the issues are appended when their
    joined text is not empty. *)
Definition flat_message (status : N) (e : CodeRabbitErrorResponse.t) : string :=
  match match status_code status with
        | Some c => known_code_text c
        | None => None
        end with
  | Some text => text
  | None =>
      let base :=
        if String.eqb (CodeRabbitErrorResponse.message e) ""
        then generic_text status
        else CodeRabbitErrorResponse.message e in
      let joined :=
        match CodeRabbitErrorResponse.issues e with
        | Some l => join ", " (map Issue.message l)
        | None => ""
        end in
      if String.eqb joined "" then base else base ++ ": " ++ joined
  end.

(** Envelope shape, in the words of the specification: the friendly string
    of a known nested code, whatever the status and the envelope's message;
    otherwise the envelope's message, or the generic text when it is empty. *)
Definition claimed_envelope_message (status : N) (e : CodeRabbitTRPCErrorResponse.t)
  : string :=
  let err := CodeRabbitTRPCErrorResponse.error e in
  match match TRPCError.data err with
        | Some d => known_code_text (TRPCErrorData.code d)
        | None => None
        end with
  | Some text => text
  | None =>
      if String.eqb (TRPCError.message err) "" then generic_text status
      else TRPCError.message err
  end.

(** *** Sample data *)

(** A browser with an empty [localStorage], a clock that advances by one
    millisecond per reading and a fixed random suffix. *)
Definition browser : World :=
  mkWorld (Some []) (fun n => 1700000000000 + Z.of_nat n)%Z 0
          (fun _ => "k3x9q2a") 0 [] false None.

Definition sample_client : Client.CodeRabbitClient.t :=
  Client.CodeRabbitClient.mk (Some "cr-key") Client.API_BASE_URL Client.API_TIMEOUT_MS.

(** A transport that answers every request with the given status and body. *)
Definition answering (status : N) (body : ResponseBody) : Transport :=
  fun _ _ _ => Resolved (Response.mk status body).

Definition bare_error : CodeRabbitErrorResponse.t :=
  CodeRabbitErrorResponse.mk "" "INTERNAL_SERVER_ERROR" None.

Definition bad_with_issues : CodeRabbitErrorResponse.t :=
  CodeRabbitErrorResponse.mk "bad" "INTERNAL_SERVER_ERROR"
    (Some [Issue.mk "a"; Issue.mk "b"]).

Definition envelope (message code : string) : CodeRabbitTRPCErrorResponse.t :=
  CodeRabbitTRPCErrorResponse.mk
    (TRPCError.mk message (-32603)%Z
       (Some (TRPCErrorData.mk code 500 "report.generate"))).

(** What a response outside 200-299 makes [generateReport] throw. *)
Definition error_of_response (status : N) (body : ResponseBody) : JsExn :=
  match body with
  | NotJson reason => JsError "SyntaxError" reason
  | TRPCErrorBody e => Client.trpc_error status e
  | ErrorBody e =>
      Client.std_error status (Some (CodeRabbitErrorResponse.message e))
        (CodeRabbitErrorResponse.issues e)
  | ResultBody _ => Client.std_error status None None
  end.

(** *** Sequences of adapter operations *)

Inductive Op : Type :=
| OpCreate (data : NewReport.t)
| OpUpdateSuccess (id : string) (results : list ReportResult.t) (durationMs : Z)
| OpUpdateFailure (id : string) (error : string) (durationMs : Z)
| OpDelete (id : string).

Definition exec (key : string) (op : Op) : Js unit :=
  match op with
  | OpCreate data => _ <- LocalStorageAdapter.create key data ;; ret tt
  | OpUpdateSuccess id results durationMs =>
      LocalStorageAdapter.updateSuccess key id results durationMs
  | OpUpdateFailure id error durationMs =>
      LocalStorageAdapter.updateFailure key id error durationMs
  | OpDelete id => LocalStorageAdapter.delete key id
  end.

(** The world after the calls, one after the other; a call that throws
    leaves the world as it had made it, and the next one is made all the
    same. *)
Fixpoint run (key : string) (ops : list Op) (w : World) : World :=
  match ops with
  | [] => w
  | op :: rest => run key rest (snd (exec key op w))
  end.

(** The data of a record as the hook creates it: pending or without status,
    no results, no error, no duration. *)
Definition created_pending (data : NewReport.t) : bool :=
  match NewReport.status data with Some pending | None => true | Some _ => false end
  && match NewReport.results data with Some [] | None => true | Some _ => false end
  && negb (is_some (NewReport.error data))
  && negb (is_some (NewReport.durationMs data)).

Definition creates_pending (op : Op) : bool :=
  match op with
  | OpCreate data => created_pending data
  | _ => true
  end.

(** What the fields of a record say about its status: a pending record has
    no duration, no results and no error; a completed one has a duration; a
    failed one has a duration and an error. *)
Definition lifecycle_ok (r : StoredReport.t) : bool :=
  match StoredReport.status r with
  | pending =>
      negb (is_some (StoredReport.durationMs r))
      && match StoredReport.results r with [] => true | _ => false end
      && negb (is_some (StoredReport.error r))
  | completed => is_some (StoredReport.durationMs r)
  | failed =>
      is_some (StoredReport.durationMs r) && is_some (StoredReport.error r)
  end.

(** Exactly one of: results non-empty, error non-null. *)
Definition one_outcome (r : StoredReport.t) : bool :=
  xorb (match StoredReport.results r with [] => false | _ => true end)
       (is_some (StoredReport.error r)).

(** The id [create] allocates in a world. *)
Definition next_id (w : World) : string :=
  "report_" ++ string_of_Z (clock w (clock_reads w)) ++ "_"
  ++ random36 w (random_reads w).

Definition pending_data : NewReport.t :=
  NewReport.mk "2024-01-01" "2024-01-31" (Some "Sprint Report") None None
    None None None None (Some []) (Some pending) None None.

Definition completed_data : NewReport.t :=
  NewReport.mk "2024-01-01" "2024-01-31" (Some "Sprint Report") None None
    None None None None
    (Some [ReportResult.mk "all" "# Sprint"]) (Some completed) None (Some 5%Z).

(** *** The hook: observations and sample data *)


(** The id of the record the hook creates: the hook reads the clock once,
    for its start time, before [create] reads it for the id. *)
Definition hook_id (w : World) : string :=
  "report_" ++ string_of_Z (clock w (S (clock_reads w))) ++ "_"
  ++ random36 w (random_reads w).

Definition no_host : Client.Host := Client.mkHost None None.


Definition boom : CodeRabbitErrorResponse.t :=
  CodeRabbitErrorResponse.mk "boom" "INTERNAL_SERVER_ERROR" None.




(** *** The adapter: listing *)

(** At least as recent as: the order of [list]. *)
Definition newer (a b : StoredReport.t) : Prop :=
  (StoredReport.createdAt b <= StoredReport.createdAt a)%Z.

(** Three records, stored oldest first. *)
Definition stored_at (id : string) (createdAt : Z) : StoredReport.t :=
  StoredReport.mk id "2024-01-01" "2024-01-31" (Some "Sprint Report") None None
    None None None None [] pending None createdAt None.

Definition three_reports : World :=
  mkWorld (Some [(LocalStorageAdapter.default_key,
                  [stored_at "a" 10; stored_at "b" 30; stored_at "c" 20])])
          (fun n => 1700000000000 + Z.of_nat n)%Z 0
          (fun _ => "k3x9q2a") 0 [] false None.

(** Outside a browser. *)
Definition server : World :=
  mkWorld None (fun n => 1700000000000 + Z.of_nat n)%Z 0
          (fun _ => "k3x9q2a") 0 [] false None.

(** The id an operation is about; for [create], the id it allocates. *)
Definition target (op : Op) (w : World) : string :=
  match op with
  | OpCreate _ => next_id w
  | OpUpdateSuccess id _ _ | OpUpdateFailure id _ _ | OpDelete id => id
  end.

(** *** The hook: further observations *)

(** The arguments of the success callback's invocations so far. *)
Definition onSuccess_calls (evs : list Event) : list (option string) :=
  flat_map (fun e => match e with EvOnSuccess id => [id] | _ => [] end) evs.

(** The second world has the storage and the clock of the first, and no
    request was sent and no callback invoked in between. *)
Definition quiet (w w' : World) : Prop :=
  localStorage w' = localStorage w /\
  clock w' = clock w /\
  clock_reads w' = clock_reads w /\
  fetches (events w') = fetches (events w) /\
  onError_calls (events w') = onError_calls (events w) /\
  onSuccess_calls (events w') = onSuccess_calls (events w).

(** The world in which the hook's [try] block starts. *)
Definition started (w : World) : World :=
  mkWorld (localStorage w) (clock w) (S (clock_reads w)) (random36 w)
          (random_reads w) (events w) true None.


(** A client that returns one report without touching anything. *)
Definition sprint_results : list ReportResult.t := [ReportResult.mk "all" "# Sprint"].

Definition answering_client (options : UseCodeRabbit.Options.t)
  : ReportGenerateRequest.t -> Js (list ReportResult.t) :=
  UseCodeRabbit.hook_client no_host (answering 200 (ResultBody sprint_results))
    (Some options).

(** The record that [create] stores for the hook, in the world the hook was
    called in. *)
Definition hook_record (request : ReportGenerateRequest.t) (w : World) : StoredReport.t :=
  StoredReport.mk (hook_id w)
    (ReportGenerateRequest.from request)
    (ReportGenerateRequest.to request)
    (option_map PromptTemplate_text (ReportGenerateRequest.promptTemplate request))
    (ReportGenerateRequest.prompt request) None
    (option_map GroupBy_text (ReportGenerateRequest.groupBy request))
    (option_map GroupBy_text (ReportGenerateRequest.subgroupBy request))
    (ReportGenerateRequest.orgId request)
    (ReportGenerateRequest.parameters request)
    [] pending None (clock w (S (S (clock_reads w)))) None.

(** The second world has the storage, the clock and the error value of the
    first, and no callback was invoked in between; requests may have been
    sent. *)
Definition calm (w w' : World) : Prop :=
  localStorage w' = localStorage w /\
  clock w' = clock w /\
  clock_reads w' = clock_reads w /\
  error w' = error w /\
  onError_calls (events w') = onError_calls (events w) /\
  onSuccess_calls (events w') = onSuccess_calls (events w).

(** Options with the localStorage adapter and two callbacks that do
    nothing. *)
Definition with_callbacks : UseCodeRabbit.Options.t :=
  UseCodeRabbit.Options.mk (Some "cr-key")
    (Some (LocalStorageAdapter.adapter LocalStorageAdapter.default_key))
    (Some (fun _ => ret tt)) (Some (fun _ => ret tt)).

(** Options with the localStorage adapter and a success callback that
    throws. *)
Definition with_throwing_onSuccess : UseCodeRabbit.Options.t :=
  UseCodeRabbit.Options.mk (Some "cr-key")
    (Some (LocalStorageAdapter.adapter LocalStorageAdapter.default_key))
    (Some (fun _ => throw (JsError "TypeError" "toast is not a function")))
    (Some (fun _ => ret tt)).

(* ------------------------------------------------------------------ *)
(** ** lib/actions: the server actions *)

Module Actions.

(** [{ data?: ReportResult[]; error?: string }]. *)
Module ActionResult.
Record t : Type := mk {
  data : option (list ReportResult.t);
  error : option string
}.
End ActionResult.

Definition not_configured : string :=
  "CODERABBIT_API_KEY not configured. Set the environment variable in your .env.local file.".

(** Check if the API is configured (server-side): [{ isConfigured }]. *)
Definition checkCodeRabbitConfig (host : Client.Host) : Js bool :=
  let client := Client.createCodeRabbitClient host None in
  ret (Client.isConfigured client).

(** Generate a report (server-side).  The imported [createCodeRabbitClient]
    is taken to be the client above; what is stated of the action depends
    on the client only through [isConfigured] and through whether
    [generateReport] returns or throws. *)
Definition generateReportAction (host : Client.Host) (fetch : Transport)
    (request : ReportGenerateRequest.t) : Js ActionResult.t :=
  try_catch
    (let client := Client.createCodeRabbitClient host None in
     if negb (Client.isConfigured client)
     then ret (ActionResult.mk None (Some not_configured))
     else
       results <- Client.generateReport fetch client request ;;
       ret (ActionResult.mk (Some results) None))
    (fun err =>
       ret (ActionResult.mk None
              (Some (match err with
                     | JsError _ message => message
                     | JsOther _ => "Failed to generate report"
                     end)))).

End Actions.

(* ------------------------------------------------------------------ *)
(** ** The client: configuration check and wire payload *)

Lemma isConfigured_spec (this : Client.CodeRabbitClient.t) :
  Client.isConfigured this = false <->
  Client.CodeRabbitClient.apiKey this = None \/
  Client.CodeRabbitClient.apiKey this = Some "".
Proof.
  unfold Client.isConfigured.
  destruct (Client.CodeRabbitClient.apiKey this) as [[|c k]|]; simpl; split;
    intros H; try reflexivity; try discriminate; auto.
  destruct H as [H|H]; discriminate.
Qed.

(** C7.  When the resolved API key is null or the empty string,
    [isConfigured] is false and [generateReport] throws the configuration
    error at once: the world is the one it started in, so no timer was set
    and the transport was not invoked (no request is added to the log),
    whatever the transport and the request are. *)
Theorem generateReport_unconfigured
    (fetch : Transport) (this : Client.CodeRabbitClient.t)
    (request : ReportGenerateRequest.t) (w : World) :
  Client.CodeRabbitClient.apiKey this = None \/
  Client.CodeRabbitClient.apiKey this = Some "" ->
  Client.isConfigured this = false /\
  Client.generateReport fetch this request w
    = (Throw (new_Error Client.not_configured), w) /\
  fetches (events (snd (Client.generateReport fetch this request w)))
    = fetches (events w).
Proof.
  intros H. apply isConfigured_spec in H.
  unfold Client.generateReport. rewrite H. simpl. auto.
Qed.

Lemma generateReport_unconfigured_witness :
  let this := Client.CodeRabbitClient.mk (Some "") Client.API_BASE_URL 600000 in
  let fetch : Transport := fun _ _ _ => Rejected AbortError in
  let w := mkWorld None (fun _ => 0%Z) 0 (fun _ => "") 0 [] false None in
  Client.isConfigured this = false /\
  Client.generateReport fetch this january w
    = (Throw (new_Error Client.not_configured), w) /\
  fetches (events (snd (Client.generateReport fetch this january w)))
    = fetches (events w).
Proof.
  intros this fetch w.
  apply (generateReport_unconfigured fetch this january w).
  right. reflexivity.
Defined.

(** The payload of a request with only the two dates has a [parameters]
    member, which the request does not set: the statement that a member of
    the payload other than [scheduleRange] is always a field of the request
    fails there. *)
Lemma requestBody_adds_parameters :
  ~ (forall k : string,
       has_key k (Client.requestBody january) = true ->
       k = "scheduleRange" \/ request_sets january k = true).
Proof.
  intros H. destruct (H "parameters" eq_refl) as [E|E]; discriminate E.
Qed.

Lemma has_key_app (k : string) (a b : list (string * Json)) :
  has_key k (a ++ b) = has_key k a || has_key k b.
Proof. unfold has_key, keys. rewrite map_app. apply existsb_app. Qed.

Lemma has_key_cons (k k' : string) (v : Json) (l : list (string * Json)) :
  has_key k ((k', v) :: l) = String.eqb k k' || has_key k l.
Proof. reflexivity. Qed.

Lemma has_key_spread (k key : string) (v : option string) :
  has_key k (Client.spread key v) = String.eqb k key && truthy_opt v.
Proof.
  unfold Client.spread, has_key.
  destruct v as [s|]; simpl; [destruct (truthy s); simpl|];
    now rewrite ?orb_false_r, ?andb_true_r, ?andb_false_r.
Qed.

Lemma keys_spread (key : string) (v : option string) :
  incl (keys (Client.spread key v)) [key].
Proof.
  unfold Client.spread.
  destruct v as [s|]; [destruct (truthy s)|]; simpl;
    auto using incl_refl, incl_nil_l.
Qed.

Lemma truthy_PromptTemplate (t : option PromptTemplate) :
  truthy_opt (option_map PromptTemplate_text t) = is_some t.
Proof. destruct t as [[]|]; reflexivity. Qed.

Lemma truthy_GroupBy (g : option GroupBy) :
  truthy_opt (option_map GroupBy_text g) = is_some g.
Proof. destruct g as [[]|]; reflexivity. Qed.

Ltac payload_keys :=
  rewrite !has_key_cons, !has_key_app, !has_key_spread,
    truthy_PromptTemplate, !truthy_GroupBy; simpl.

(** C6, as the code has it.  The payload always carries [from], [to],
    [scheduleRange] (here ['Dates'], the only value of the type, also when
    the request leaves it out) and [parameters] (the request's list, or the
    empty list when the request has none).  Each of [prompt],
    [promptTemplate], [groupBy], [subgroupBy] and [orgId] is a member
    exactly when the request gives it as a non-empty string; so a request
    with neither [prompt] nor [promptTemplate] yields a payload with neither
    key.  No other key occurs. *)
Theorem requestBody_members (request : ReportGenerateRequest.t) :
  let body := Client.requestBody request in
  member "from" body = Some (JString (ReportGenerateRequest.from request)) /\
  member "to" body = Some (JString (ReportGenerateRequest.to request)) /\
  member "scheduleRange" body = Some (JString "Dates") /\
  member "parameters" body
    = Some (JArray (map FilterConfig_json
                      (match ReportGenerateRequest.parameters request with
                       | Some l => l
                       | None => []
                       end))) /\
  has_key "prompt" body = truthy_opt (ReportGenerateRequest.prompt request) /\
  has_key "promptTemplate" body
    = is_some (ReportGenerateRequest.promptTemplate request) /\
  has_key "groupBy" body = is_some (ReportGenerateRequest.groupBy request) /\
  has_key "subgroupBy" body = is_some (ReportGenerateRequest.subgroupBy request) /\
  has_key "orgId" body = truthy_opt (ReportGenerateRequest.orgId request) /\
  incl (keys body) payload_fields.
Proof.
  destruct request as [sr f t p pt ps g sg o]; unfold Client.requestBody; simpl.
  repeat split.
  - now destruct sr as [[]|].
  - payload_keys; now destruct (truthy_opt p), (is_some pt), (is_some g), (is_some sg), (truthy_opt o).
  - payload_keys; now destruct (truthy_opt p), (is_some pt), (is_some g), (is_some sg), (truthy_opt o).
  - payload_keys; now destruct (truthy_opt p), (is_some pt), (is_some g), (is_some sg), (truthy_opt o).
  - payload_keys; now destruct (truthy_opt p), (is_some pt), (is_some g), (is_some sg), (truthy_opt o).
  - payload_keys; now destruct (truthy_opt p), (is_some pt), (is_some g), (is_some sg), (truthy_opt o).
  - intros k Hk. unfold keys in Hk. simpl in Hk. rewrite !map_app, !in_app_iff in Hk.
    unfold payload_fields.
    repeat (destruct Hk as [Hk|Hk];
            [first [ subst k; simpl; tauto
                   | apply keys_spread in Hk; destruct Hk as [<-|[]]; simpl; tauto ]|]).
    apply keys_spread in Hk; destruct Hk as [<-|[]]; simpl; tauto.
Qed.

(* ------------------------------------------------------------------ *)
(** ** The client: error normalisation *)

Lemma isConfigured_key (this : Client.CodeRabbitClient.t) (key : string) :
  Client.CodeRabbitClient.apiKey this = Some key -> key <> "" ->
  Client.isConfigured this = true.
Proof.
  unfold Client.isConfigured. intros -> H. destruct key; [congruence|reflexivity].
Qed.

Lemma std_error_new_Error status message issues :
  exists m, Client.std_error status message issues = new_Error m.
Proof.
  unfold Client.std_error.
  destruct (value_truthy _); eexists; reflexivity.
Qed.

Lemma trpc_error_new_Error status e :
  exists m, Client.trpc_error status e = new_Error m.
Proof.
  unfold Client.trpc_error.
  destruct (value_truthy _); eexists; reflexivity.
Qed.

Lemma generateReport_not_ok fetch this request w key status body :
  Client.CodeRabbitClient.apiKey this = Some key -> key <> "" ->
  fetch (Client.endpoint this) key (JObject (Client.requestBody request))
    = Resolved (Response.mk status body) ->
  ok (Response.mk status body) = false ->
  fst (Client.generateReport fetch this request w)
    = Throw (error_of_response status body).
Proof.
  intros Hkey Hne Hfetch Hok.
  unfold Client.generateReport.
  rewrite (isConfigured_key _ _ Hkey Hne). simpl.
  unfold bind, try_catch, Client.do_fetch, emit, bind. rewrite Hkey. simpl.
  rewrite Hfetch. unfold ret. simpl. rewrite Hok. simpl.
  unfold Client.response_json. simpl.
  destruct body as [reason|e|e|data]; simpl; try reflexivity.
  - destruct (trpc_error_new_Error status e) as [m ->]. reflexivity.
  - destruct (std_error_new_Error status
                (Some (CodeRabbitErrorResponse.message e))
                (CodeRabbitErrorResponse.issues e)) as [m ->]. reflexivity.
  - destruct (std_error_new_Error status None None) as [m ->]. reflexivity.
Qed.

Lemma truthy_eqb (s : string) : truthy s = negb (String.eqb s "").
Proof. destruct s; reflexivity. Qed.

Lemma std_error_flat status e :
  Client.std_error status (Some (CodeRabbitErrorResponse.message e))
    (CodeRabbitErrorResponse.issues e)
  = new_Error (flat_message status e).
Proof.
  unfold Client.std_error, flat_message, Client.statusCodeMap, status_code.
  destruct (status =? 401)%N; [reflexivity|].
  destruct (status =? 403)%N; [reflexivity|].
  destruct (status =? 429)%N; [reflexivity|].
  destruct (status =? 400)%N; [reflexivity|].
  simpl. unfold or_else. rewrite truthy_eqb.
  destruct (CodeRabbitErrorResponse.issues e) as [l|]; simpl.
  - rewrite truthy_eqb.
    destruct (String.eqb (join ", " (map Issue.message l)) "");
      destruct (String.eqb (CodeRabbitErrorResponse.message e) ""); reflexivity.
  - destruct (String.eqb (CodeRabbitErrorResponse.message e) ""); reflexivity.
Qed.

(** With status 500 and the body [{ message: "", code }], the code surfaces
    the generic text, where the raw [message] field is the empty string. *)
Lemma flat_error_empty_message :
  fst (Client.generateReport (answering 500 (ErrorBody bare_error))
         sample_client january browser)
    = Throw (new_Error "API request failed with status 500") /\
  fst (Client.generateReport (answering 500 (ErrorBody bare_error))
         sample_client january browser)
    <> Throw (new_Error (claimed_flat_message 500 bare_error)).
Proof. split; [reflexivity | discriminate]. Qed.

(** C1, as the code has it.  For a configured client and a response outside
    200-299 whose body has the flat shape, [generateReport] throws an
    [Error] whose message is: the friendly string of the status for 401,
    403, 429 and 400 (message and issues of the body are ignored);
    otherwise the body's [message], or the generic "API request failed with
    status N" when that is empty, followed by [": "] and the comma-joined
    messages of the issues when that joined text is not empty. *)
Theorem flat_error_surfaces fetch this request w key status e :
  Client.CodeRabbitClient.apiKey this = Some key -> key <> "" ->
  fetch (Client.endpoint this) key (JObject (Client.requestBody request))
    = Resolved (Response.mk status (ErrorBody e)) ->
  ok (Response.mk status (ErrorBody e)) = false ->
  fst (Client.generateReport fetch this request w)
    = Throw (new_Error (flat_message status e)).
Proof.
  intros Hkey Hne Hfetch Hok.
  rewrite (generateReport_not_ok _ _ _ _ _ _ _ Hkey Hne Hfetch Hok).
  simpl. now rewrite std_error_flat.
Qed.

Lemma flat_error_surfaces_witness :
  fst (Client.generateReport (answering 500 (ErrorBody bad_with_issues))
         sample_client january browser)
    = Throw (new_Error "bad: a, b").
Proof.
  apply (flat_error_surfaces (answering 500 (ErrorBody bad_with_issues))
           sample_client january browser "cr-key" 500 bad_with_issues).
  - reflexivity.
  - discriminate.
  - reflexivity.
  - reflexivity.
Defined.

Example flat_error_400 :
  fst (Client.generateReport (answering 400 (ErrorBody bad_with_issues))
         sample_client january browser)
    = Throw (new_Error "Invalid request. Please check your report parameters.").
Proof. reflexivity. Qed.

Lemma property_ERROR_MESSAGES (c : string) :
  property Client.ERROR_MESSAGES c
  = match known_code_text c with
    | Some text => VString text
    | None =>
        match assoc c Object_prototype with
        | Some v => v
        | None => VUndefined
        end
    end.
Proof.
  unfold property, known_code_text, Client.ERROR_MESSAGES. simpl.
  destruct (String.eqb c "UNAUTHORIZED"); [reflexivity|].
  destruct (String.eqb c "FORBIDDEN"); [reflexivity|].
  destruct (String.eqb c "TOO_MANY_REQUESTS"); [reflexivity|].
  destruct (String.eqb c "BAD_REQUEST"); reflexivity.
Qed.

Lemma known_code_text_truthy (c text : string) :
  known_code_text c = Some text -> truthy c = true /\ truthy text = true.
Proof.
  unfold known_code_text.
  destruct (String.eqb c "UNAUTHORIZED") eqn:E1;
    [apply String.eqb_eq in E1; subst; intros [= <-]; now split|].
  destruct (String.eqb c "FORBIDDEN") eqn:E2;
    [apply String.eqb_eq in E2; subst; intros [= <-]; now split|].
  destruct (String.eqb c "TOO_MANY_REQUESTS") eqn:E3;
    [apply String.eqb_eq in E3; subst; intros [= <-]; now split|].
  destruct (String.eqb c "BAD_REQUEST") eqn:E4;
    [apply String.eqb_eq in E4; subst; intros [= <-]; now split|].
  discriminate.
Qed.

(** The envelope branch agrees with the specification on every nested code
    that is not the name of a member of [Object.prototype]. *)
Lemma trpc_error_claimed status e :
  match TRPCError.data (CodeRabbitTRPCErrorResponse.error e) with
  | Some d => assoc (TRPCErrorData.code d) Object_prototype = None
  | None => True
  end ->
  Client.trpc_error status e = new_Error (claimed_envelope_message status e).
Proof.
  unfold Client.trpc_error, claimed_envelope_message, Client.friendly.
  destruct (TRPCError.data (CodeRabbitTRPCErrorResponse.error e)) as [d|];
    cbn [option_map]; intros Hproto.
  - rewrite property_ERROR_MESSAGES, Hproto.
    destruct (known_code_text (TRPCErrorData.code d)) as [text|] eqn:K.
    + destruct (known_code_text_truthy _ _ K) as [-> Ht]. cbn. now rewrite Ht.
    + unfold or_else. rewrite !truthy_eqb.
      destruct (String.eqb (TRPCErrorData.code d) "") eqn:E; cbn.
      * apply String.eqb_eq in E. rewrite E. cbn.
        now destruct (String.eqb (TRPCError.message _) "").
      * now destruct (String.eqb (TRPCError.message _) "").
  - cbn. unfold or_else. rewrite truthy_eqb.
    now destruct (String.eqb _ "").
Qed.

Example envelope_unauthorized :
  fst (Client.generateReport (answering 500 (TRPCErrorBody (envelope "x" "UNAUTHORIZED")))
         sample_client january browser)
    = Throw (new_Error UNAUTHORIZED_text).
Proof. reflexivity. Qed.

(** C2 at the nested code ["constructor"]: [ERROR_MESSAGES["constructor"]]
    is the function [Object], inherited from [Object.prototype] and truthy,
    so the text of that function is surfaced, where the specification
    surfaces the envelope's message ["x"]. *)
Theorem envelope_inherited_code :
  fst (Client.generateReport (answering 500 (TRPCErrorBody (envelope "x" "constructor")))
         sample_client january browser)
    = Throw (new_Error "function Object() { [native code] }") /\
  claimed_envelope_message 500 (envelope "x" "constructor") = "x".
Proof. split; reflexivity. Qed.

Example envelope_proto_code :
  fst (Client.generateReport (answering 500 (TRPCErrorBody (envelope "x" "__proto__")))
         sample_client january browser)
    = Throw (new_Error "[object Object]").
Proof. reflexivity. Qed.

(* ------------------------------------------------------------------ *)
(** ** The localStorage adapter *)

Lemma getItem_setItem key v items : getItem key (setItem key v items) = Some v.
Proof. unfold setItem. simpl. now rewrite String.eqb_refl. Qed.

Lemma getReports_run key w items :
  localStorage w = Some items ->
  LocalStorageAdapter.getReports key w = (Normal (reports_of key w), w).
Proof.
  intros H. unfold LocalStorageAdapter.getReports, LocalStorageAdapter.ensureBrowser,
    bind, ret, reports_of.
  now rewrite H.
Qed.

Lemma saveReports_run key l w items :
  localStorage w = Some items ->
  LocalStorageAdapter.saveReports key l w
  = (Normal tt, with_localStorage (Some (setItem key l items)) w).
Proof.
  intros H. unfold LocalStorageAdapter.saveReports, LocalStorageAdapter.ensureBrowser, bind.
  now rewrite H.
Qed.

Lemma reports_of_saved key l items w :
  reports_of key (with_localStorage (Some (setItem key l items)) w) = l.
Proof. unfold reports_of. simpl. now rewrite String.eqb_refl. Qed.

Lemma find_assign id f l r :
  (forall x, StoredReport.id (f x) = StoredReport.id x) ->
  LocalStorageAdapter.find id l = Some r ->
  LocalStorageAdapter.find id (LocalStorageAdapter.assign id f l) = Some (f r).
Proof.
  intros Hid. unfold LocalStorageAdapter.find.
  induction l as [|x l IH]; simpl; [discriminate|].
  destruct (String.eqb (StoredReport.id x) id) eqn:E; simpl.
  - intros [= ->]. now rewrite Hid, E.
  - intros H. rewrite E. auto.
Qed.

Lemma find_app_fresh id l r :
  LocalStorageAdapter.find id l = None -> StoredReport.id r = id ->
  LocalStorageAdapter.find id (l ++ [r])%list = Some r.
Proof.
  unfold LocalStorageAdapter.find. intros Hl Hr.
  induction l as [|x l IH]; simpl in *.
  - now rewrite Hr, String.eqb_refl.
  - destruct (String.eqb (StoredReport.id x) id); [discriminate|auto].
Qed.

Lemma find_deleted id l :
  LocalStorageAdapter.find id
    (filter (fun r => negb (String.eqb (StoredReport.id r) id)) l) = None.
Proof.
  unfold LocalStorageAdapter.find.
  induction l as [|x l IH]; simpl; [reflexivity|].
  destruct (String.eqb (StoredReport.id x) id) eqn:E; simpl; [exact IH|].
  now rewrite E.
Qed.

Lemma get_run key id w items :
  localStorage w = Some items ->
  LocalStorageAdapter.get key id w
  = (Normal (LocalStorageAdapter.find id (reports_of key w)), w).
Proof.
  intros H. unfold LocalStorageAdapter.get, bind.
  now rewrite (getReports_run _ _ _ H).
Qed.

Lemma create_run key data w items :
  localStorage w = Some items ->
  exists w' r,
    LocalStorageAdapter.create key data w = (Normal (next_id w), w') /\
    localStorage w' <> None /\
    reports_of key w' = (reports_of key w ++ [r])%list /\
    StoredReport.id r = next_id w /\
    StoredReport.status r
      = match NewReport.status data with Some s => s | None => pending end /\
    StoredReport.results r
      = match NewReport.results data with Some rs => rs | None => [] end /\
    StoredReport.error r = NewReport.error data /\
    StoredReport.durationMs r = NewReport.durationMs data /\
    StoredReport.createdAt r = clock w (S (clock_reads w)).
Proof.
  intros H. unfold LocalStorageAdapter.create, bind.
  rewrite (getReports_run _ _ _ H).
  unfold Date_now, Math_random_base36, ret. simpl.
  erewrite saveReports_run by (simpl; exact H).
  eexists _, _. split; [reflexivity|].
  split; [discriminate|].
  split; [apply reports_of_saved|].
  simpl. repeat split; reflexivity.
Qed.

Ltac run_update H F :=
  unfold LocalStorageAdapter.updateSuccess, LocalStorageAdapter.updateFailure, bind;
  rewrite (getReports_run _ _ _ H), F;
  try (erewrite saveReports_run by exact H); reflexivity.

Lemma updateSuccess_found key id rs d w items r :
  localStorage w = Some items ->
  LocalStorageAdapter.find id (reports_of key w) = Some r ->
  LocalStorageAdapter.updateSuccess key id rs d w
  = (Normal tt,
     with_localStorage
       (Some (setItem key
                (LocalStorageAdapter.assign id (LocalStorageAdapter.set_success rs d)
                   (reports_of key w)) items)) w).
Proof. intros H F. run_update H F. Qed.

Lemma updateFailure_found key id e d w items r :
  localStorage w = Some items ->
  LocalStorageAdapter.find id (reports_of key w) = Some r ->
  LocalStorageAdapter.updateFailure key id e d w
  = (Normal tt,
     with_localStorage
       (Some (setItem key
                (LocalStorageAdapter.assign id (LocalStorageAdapter.set_failure e d)
                   (reports_of key w)) items)) w).
Proof. intros H F. run_update H F. Qed.

Lemma updateSuccess_missing key id rs d w items :
  localStorage w = Some items ->
  LocalStorageAdapter.find id (reports_of key w) = None ->
  LocalStorageAdapter.updateSuccess key id rs d w
  = (Throw (LocalStorageAdapter.not_found id), w).
Proof. intros H F. run_update H F. Qed.

Lemma updateFailure_missing key id e d w items :
  localStorage w = Some items ->
  LocalStorageAdapter.find id (reports_of key w) = None ->
  LocalStorageAdapter.updateFailure key id e d w
  = (Throw (LocalStorageAdapter.not_found id), w).
Proof. intros H F. run_update H F. Qed.

Lemma delete_run key id w items :
  localStorage w = Some items ->
  LocalStorageAdapter.delete key id w
  = (Normal tt,
     with_localStorage
       (Some (setItem key
                (filter (fun r => negb (String.eqb (StoredReport.id r) id))
                   (reports_of key w)) items)) w).
Proof.
  intros H. unfold LocalStorageAdapter.delete, bind.
  rewrite (getReports_run _ _ _ H). now erewrite saveReports_run by exact H.
Qed.

Lemma updateSuccess_get key id rs d w items r :
  localStorage w = Some items ->
  LocalStorageAdapter.find id (reports_of key w) = Some r ->
  exists w' items',
    LocalStorageAdapter.updateSuccess key id rs d w = (Normal tt, w') /\
    localStorage w' = Some items' /\
    LocalStorageAdapter.get key id w'
      = (Normal (Some (LocalStorageAdapter.set_success rs d r)), w').
Proof.
  intros H F. eexists _, _.
  split; [exact (updateSuccess_found _ _ rs d _ _ _ H F)|].
  split; [reflexivity|].
  erewrite get_run by reflexivity. rewrite reports_of_saved.
  erewrite find_assign; [reflexivity | reflexivity | exact F].
Qed.

Lemma updateFailure_get key id e d w items r :
  localStorage w = Some items ->
  LocalStorageAdapter.find id (reports_of key w) = Some r ->
  exists w' items',
    LocalStorageAdapter.updateFailure key id e d w = (Normal tt, w') /\
    localStorage w' = Some items' /\
    LocalStorageAdapter.get key id w'
      = (Normal (Some (LocalStorageAdapter.set_failure e d r)), w').
Proof.
  intros H F. eexists _, _.
  split; [exact (updateFailure_found _ _ e d _ _ _ H F)|].
  split; [reflexivity|].
  erewrite get_run by reflexivity. rewrite reports_of_saved.
  erewrite find_assign; [reflexivity | reflexivity | exact F].
Qed.

(** In the browser, a record is created pending, fails, and a later
    [updateSuccess] on the same id turns the failed record into a completed
    one. *)
Lemma updateSuccess_leaves_failed :
  let id := next_id browser in
  let w1 := run LocalStorageAdapter.default_key
              [OpCreate pending_data; OpUpdateFailure id "boom" 40] browser in
  let w2 := run LocalStorageAdapter.default_key
              [OpUpdateSuccess id [ReportResult.mk "all" "# Sprint"] 90] w1 in
  option_map StoredReport.status
    (LocalStorageAdapter.find id (reports_of LocalStorageAdapter.default_key w1))
    = Some failed /\
  option_map StoredReport.status
    (LocalStorageAdapter.find id (reports_of LocalStorageAdapter.default_key w2))
    = Some completed.
Proof. split; reflexivity. Qed.

(** C3, as the code has it.  On a record that exists, [updateSuccess] sets
    the status to completed, with the results and the duration, and
    [updateFailure] sets it to failed, with the error and the duration,
    whatever the status was before (pending, completed or failed).  On an
    id that is absent both throw "Report not found" and leave the world as
    it was, so no update brings a record into existence. *)
Theorem update_transitions key id w items :
  localStorage w = Some items ->
  match LocalStorageAdapter.find id (reports_of key w) with
  | Some r =>
      (forall rs d, exists w' r',
          LocalStorageAdapter.updateSuccess key id rs d w = (Normal tt, w') /\
          LocalStorageAdapter.get key id w' = (Normal (Some r'), w') /\
          StoredReport.status r' = completed /\
          StoredReport.results r' = rs /\
          StoredReport.durationMs r' = Some d /\
          StoredReport.error r' = StoredReport.error r) /\
      (forall e d, exists w' r',
          LocalStorageAdapter.updateFailure key id e d w = (Normal tt, w') /\
          LocalStorageAdapter.get key id w' = (Normal (Some r'), w') /\
          StoredReport.status r' = failed /\
          StoredReport.error r' = Some e /\
          StoredReport.durationMs r' = Some d /\
          StoredReport.results r' = StoredReport.results r)
  | None =>
      (forall rs d,
          LocalStorageAdapter.updateSuccess key id rs d w
          = (Throw (new_Error ("Report not found: " ++ id)), w)) /\
      (forall e d,
          LocalStorageAdapter.updateFailure key id e d w
          = (Throw (new_Error ("Report not found: " ++ id)), w))
  end.
Proof.
  intros H.
  destruct (LocalStorageAdapter.find id (reports_of key w)) as [r|] eqn:F.
  - split.
    + intros rs d.
      destruct (updateSuccess_get key id rs d w items r H F) as (w' & _ & Hu & _ & Hg).
      exists w', (LocalStorageAdapter.set_success rs d r). repeat split; assumption.
    + intros e d.
      destruct (updateFailure_get key id e d w items r H F) as (w' & _ & Hu & _ & Hg).
      exists w', (LocalStorageAdapter.set_failure e d r). repeat split; assumption.
  - split; intros.
    + exact (updateSuccess_missing _ _ _ _ _ _ H F).
    + exact (updateFailure_missing _ _ _ _ _ _ H F).
Qed.

Lemma update_transitions_witness :
  let key := LocalStorageAdapter.default_key in
  let w := run key [OpCreate pending_data; OpUpdateFailure (next_id browser) "boom" 40]
             browser in
  exists w' r',
    LocalStorageAdapter.updateSuccess key (next_id browser) [] 90 w = (Normal tt, w') /\
    LocalStorageAdapter.get key (next_id browser) w' = (Normal (Some r'), w') /\
    StoredReport.status r' = completed /\
    StoredReport.results r' = [] /\
    StoredReport.durationMs r' = Some 90%Z /\
    StoredReport.error r' = Some "boom".
Proof.
  intros key w.
  pose proof (update_transitions key (next_id browser) w
                [(key, reports_of key w)] eq_refl) as T.
  change (LocalStorageAdapter.find (next_id browser) (reports_of key w))
    with (Some (StoredReport.mk (next_id browser) "2024-01-01" "2024-01-31"
                  (Some "Sprint Report") None None None None None None []
                  failed (Some "boom") 1700000000001%Z (Some 40%Z))) in T.
  destruct T as [T _]. exact (T [] 90%Z).
Defined.

(** *** The fields of a record along its life *)

Lemma lifecycle_assign id f l :
  (forall x, lifecycle_ok (f x) = true) ->
  forallb lifecycle_ok l = true ->
  forallb lifecycle_ok (LocalStorageAdapter.assign id f l) = true.
Proof.
  intros Hf. induction l as [|x l IH]; simpl; [reflexivity|].
  intros H. apply andb_true_iff in H. destruct H as [Hx Hl].
  destruct (String.eqb (StoredReport.id x) id); simpl.
  - now rewrite Hf, Hl.
  - now rewrite Hx, IH.
Qed.

Lemma lifecycle_filter (p : StoredReport.t -> bool) l :
  forallb lifecycle_ok l = true -> forallb lifecycle_ok (filter p l) = true.
Proof.
  rewrite !forallb_forall. intros H x Hx. apply filter_In in Hx. now apply H.
Qed.

Lemma exec_lifecycle key op w :
  creates_pending op = true ->
  forallb lifecycle_ok (reports_of key w) = true ->
  forallb lifecycle_ok (reports_of key (snd (exec key op w))) = true.
Proof.
  intros Hop Hw.
  destruct (localStorage w) as [items|] eqn:H.
  - destruct op as [data|id rs d|id e d|id]; simpl.
    + destruct (create_run key data w items H)
        as (w' & r & Hc & _ & Hr & _ & Hs & Hrs & He & Hd & _).
      unfold bind. rewrite Hc. simpl. rewrite Hr, forallb_app, Hw. simpl.
      rewrite andb_true_r. unfold lifecycle_ok. rewrite Hs, Hrs, He, Hd.
      simpl in Hop. unfold created_pending in Hop.
      destruct (NewReport.status data) as [[]|], (NewReport.results data) as [[|]|],
        (NewReport.error data), (NewReport.durationMs data); simpl in *;
        congruence.
    + destruct (LocalStorageAdapter.find id (reports_of key w)) eqn:F.
      * rewrite (updateSuccess_found _ _ rs d _ _ _ H F). simpl.
        rewrite reports_of_saved. now apply lifecycle_assign.
      * now rewrite (updateSuccess_missing _ _ rs d _ _ H F).
    + destruct (LocalStorageAdapter.find id (reports_of key w)) eqn:F.
      * rewrite (updateFailure_found _ _ e d _ _ _ H F). simpl.
        rewrite reports_of_saved. now apply lifecycle_assign.
      * now rewrite (updateFailure_missing _ _ e d _ _ H F).
    + rewrite (delete_run _ _ _ _ H). simpl. rewrite reports_of_saved.
      now apply lifecycle_filter.
  - assert (E : snd (exec key op w) = w).
    { destruct op; simpl;
        unfold LocalStorageAdapter.create, LocalStorageAdapter.updateSuccess,
          LocalStorageAdapter.updateFailure, LocalStorageAdapter.delete,
          LocalStorageAdapter.getReports, LocalStorageAdapter.ensureBrowser, bind;
        now rewrite H. }
    now rewrite E.
Qed.

Lemma run_lifecycle key ops :
  forall w,
    forallb creates_pending ops = true ->
    forallb lifecycle_ok (reports_of key w) = true ->
    forallb lifecycle_ok (reports_of key (run key ops w)) = true.
Proof.
  induction ops as [|op ops IH]; simpl; intros w Hops Hw; [exact Hw|].
  apply andb_true_iff in Hops. destruct Hops as [Hop Hops].
  apply IH; [exact Hops|]. now apply exec_lifecycle.
Qed.

(** In the browser, a record created pending and then completed with an
    empty list of results has left [pending] with neither results nor an
    error. *)
Lemma completed_without_outcome :
  let key := LocalStorageAdapter.default_key in
  let w := run key [OpCreate pending_data; OpUpdateSuccess (next_id browser) [] 90]
             browser in
  exists r,
    LocalStorageAdapter.get key (next_id browser) w = (Normal (Some r), w) /\
    StoredReport.status r = completed /\
    StoredReport.results r = [] /\
    StoredReport.error r = None /\
    one_outcome r = false.
Proof. eexists. repeat split. Qed.

(** C4, as the code has it.  Start from a store whose records are
    consistent with their status, the empty store for one, and make any
    sequence of [create] (with the data of a pending record, as the hook
    passes it), [updateSuccess], [updateFailure] and [delete].  Then for
    every record of the store: [durationMs] is null if and only if the
    status is pending; a failed record has an error; a pending record has no
    results and no error.  (That the results of a completed record are
    non-empty, or that it has no error, is not guaranteed.) *)
Theorem lifecycle_preserved key ops w r :
  forallb creates_pending ops = true ->
  forallb lifecycle_ok (reports_of key w) = true ->
  In r (reports_of key (run key ops w)) ->
  (StoredReport.durationMs r = None <-> StoredReport.status r = pending) /\
  (StoredReport.status r = failed -> StoredReport.error r <> None) /\
  (StoredReport.status r = pending ->
   StoredReport.results r = [] /\ StoredReport.error r = None).
Proof.
  intros Hops Hw Hr.
  pose proof (run_lifecycle key ops w Hops Hw) as H.
  rewrite forallb_forall in H. specialize (H r Hr).
  unfold lifecycle_ok in H.
  destruct (StoredReport.status r), (StoredReport.durationMs r),
    (StoredReport.results r), (StoredReport.error r);
    simpl in H; try discriminate H;
    repeat split; intros; try congruence.
Qed.

Lemma lifecycle_preserved_witness :
  let key := LocalStorageAdapter.default_key in
  let ops := [OpCreate pending_data;
              OpUpdateFailure (next_id browser) "boom" 40;
              OpUpdateSuccess (next_id browser) [] 90] in
  let r := StoredReport.mk (next_id browser) "2024-01-01" "2024-01-31"
             (Some "Sprint Report") None None None None None None []
             completed (Some "boom") 1700000000001%Z (Some 90%Z) in
  (StoredReport.durationMs r = None <-> StoredReport.status r = pending) /\
  (StoredReport.status r = failed -> StoredReport.error r <> None) /\
  (StoredReport.status r = pending ->
   StoredReport.results r = [] /\ StoredReport.error r = None).
Proof.
  intros key ops r.
  apply (lifecycle_preserved key ops browser r).
  - reflexivity.
  - reflexivity.
  - simpl. left. reflexivity.
Defined.

(** *** Create, get, update, delete *)

(** [create] keeps the status and the duration its caller supplies: a record
    created as completed, with a duration, is read back as such. *)
Lemma create_keeps_supplied_status :
  let key := LocalStorageAdapter.default_key in
  let w := run key [OpCreate completed_data] browser in
  fst (LocalStorageAdapter.create key completed_data browser)
    = Normal (next_id browser) /\
  exists r,
    LocalStorageAdapter.get key (next_id browser) w = (Normal (Some r), w) /\
    StoredReport.status r = completed /\
    StoredReport.durationMs r = Some 5%Z.
Proof.
  split; [reflexivity|]. eexists. repeat split.
Qed.

(** C5, as the code has it.  In a browser, for data whose status is absent
    or pending and whose duration is absent, and when the id that [create]
    allocates is not already one of the store: [create] returns that id and
    [get] gives a pending record without duration; after [updateSuccess]
    with results [rs] and duration [d] (1200, say), [get] gives a completed
    record with results [rs] and duration [d]; after [delete], [get] gives
    null; and a second [delete] returns normally. *)
Theorem create_update_delete key data w items rs d :
  localStorage w = Some items ->
  NewReport.status data = None \/ NewReport.status data = Some pending ->
  NewReport.durationMs data = None ->
  LocalStorageAdapter.find (next_id w) (reports_of key w) = None ->
  exists w1 r1 w2 r2 w3 w4,
    LocalStorageAdapter.create key data w = (Normal (next_id w), w1) /\
    LocalStorageAdapter.get key (next_id w) w1 = (Normal (Some r1), w1) /\
    StoredReport.status r1 = pending /\
    StoredReport.durationMs r1 = None /\
    LocalStorageAdapter.updateSuccess key (next_id w) rs d w1 = (Normal tt, w2) /\
    LocalStorageAdapter.get key (next_id w) w2 = (Normal (Some r2), w2) /\
    StoredReport.status r2 = completed /\
    StoredReport.results r2 = rs /\
    StoredReport.durationMs r2 = Some d /\
    LocalStorageAdapter.delete key (next_id w) w2 = (Normal tt, w3) /\
    LocalStorageAdapter.get key (next_id w) w3 = (Normal None, w3) /\
    LocalStorageAdapter.delete key (next_id w) w3 = (Normal tt, w4).
Proof.
  intros H Hs Hd Hfresh.
  destruct (create_run key data w items H)
    as (w1 & r1 & Hc & Hls1 & Hr1 & Hid & Hst & _ & _ & Hdur & _).
  destruct (localStorage w1) as [items1|] eqn:H1; [clear Hls1|congruence].
  assert (F1 : LocalStorageAdapter.find (next_id w) (reports_of key w1) = Some r1).
  { rewrite Hr1. now apply find_app_fresh. }
  destruct (updateSuccess_get key (next_id w) rs d w1 items1 r1 H1 F1)
    as (w2 & items2 & Hu & H2 & Hg2).
  exists w1, r1, w2, (LocalStorageAdapter.set_success rs d r1). eexists _, _.
  split; [exact Hc|].
  split; [now rewrite (get_run _ _ _ _ H1), F1|].
  split; [rewrite Hst; now destruct Hs as [-> | ->]|].
  split; [now rewrite Hdur|].
  split; [exact Hu|].
  split; [exact Hg2|].
  split; [reflexivity|].
  split; [reflexivity|].
  split; [reflexivity|].
  split; [exact (delete_run _ _ _ _ H2)|].
  split.
  - erewrite get_run by reflexivity. rewrite reports_of_saved.
    now rewrite find_deleted.
  - now erewrite delete_run by reflexivity.
Qed.

Lemma create_update_delete_witness :
  let key := LocalStorageAdapter.default_key in
  let id := next_id browser in
  exists w1 r1 w2 r2 w3 w4,
    LocalStorageAdapter.create key pending_data browser = (Normal id, w1) /\
    LocalStorageAdapter.get key id w1 = (Normal (Some r1), w1) /\
    StoredReport.status r1 = pending /\
    StoredReport.durationMs r1 = None /\
    LocalStorageAdapter.updateSuccess key id [ReportResult.mk "all" "# Sprint"] 1200 w1
      = (Normal tt, w2) /\
    LocalStorageAdapter.get key id w2 = (Normal (Some r2), w2) /\
    StoredReport.status r2 = completed /\
    StoredReport.results r2 = [ReportResult.mk "all" "# Sprint"] /\
    StoredReport.durationMs r2 = Some 1200%Z /\
    LocalStorageAdapter.delete key id w2 = (Normal tt, w3) /\
    LocalStorageAdapter.get key id w3 = (Normal None, w3) /\
    LocalStorageAdapter.delete key id w3 = (Normal tt, w4).
Proof.
  intros key id.
  apply (create_update_delete key pending_data browser []
           [ReportResult.mk "all" "# Sprint"] 1200%Z).
  - reflexivity.
  - right. reflexivity.
  - reflexivity.
  - reflexivity.
Defined.

(* ------------------------------------------------------------------ *)
(** ** The orchestration hook *)

Lemma onError_calls_app a b :
  onError_calls (a ++ b) = (onError_calls a ++ onError_calls b)%list.
Proof. unfold onError_calls. apply flat_map_app. Qed.

Lemma create_world key data w items :
  localStorage w = Some items ->
  exists r,
    LocalStorageAdapter.create key data w
    = (Normal (next_id w),
       mkWorld (Some (setItem key (reports_of key w ++ [r]) items))
               (clock w) (S (S (clock_reads w))) (random36 w) (S (random_reads w))
               (events w) (isGenerating w) (error w)) /\
    StoredReport.id r = next_id w.
Proof.
  intros H. unfold LocalStorageAdapter.create, bind.
  rewrite (getReports_run _ _ _ H).
  unfold Date_now, Math_random_base36, ret. simpl.
  erewrite saveReports_run by (simpl; exact H).
  eexists. split; reflexivity.
Qed.


(** The three statements before the [try]. *)
Lemma generateReport_prelude client options request w :
  UseCodeRabbit.generateReport client options request w
  = try_finally
      (created <- UseCodeRabbit.attempt (UseCodeRabbit.create_pending options request) ;;
       match created with
       | Throw err =>
           UseCodeRabbit.handle_failure options (clock w (clock_reads w)) None err
       | Normal reportId =>
           try_catch
             (UseCodeRabbit.generate_and_store client options
                (clock w (clock_reads w)) reportId request)
             (UseCodeRabbit.handle_failure options (clock w (clock_reads w)) reportId)
       end)%js
      (setIsGenerating false)
      (mkWorld (localStorage w) (clock w) (S (clock_reads w)) (random36 w)
               (random_reads w) (events w) true None).
Proof. reflexivity. Qed.




(** *** What leaves the hook *)






(* ------------------------------------------------------------------ *)
(** ** The client: what is known of the timeout *)

(** The default of the timeout is 600,000 ms. *)
Example default_timeout :
  Client.CodeRabbitClient.timeout (Client.createCodeRabbitClient no_host None) = 600000%N.
Proof. reflexivity. Qed.

(** Once [fetch] rejects with an [AbortError], as it does when the signal
    of the controller fires, [generateReport] throws the timed-out error;
    its message is [timed_out], which carries the configured timeout in
    seconds as [seconds_text] prints it. *)
Lemma generateReport_aborted fetch this request w key m :
  Client.CodeRabbitClient.apiKey this = Some key -> key <> "" ->
  fetch (Client.endpoint this) key (JObject (Client.requestBody request))
    = Rejected (JsError "AbortError" m) ->
  fst (Client.generateReport fetch this request w)
    = Throw (new_Error (Client.timed_out this)).
Proof.
  intros Hkey Hne Hfetch.
  unfold Client.generateReport.
  rewrite (isConfigured_key _ _ Hkey Hne). simpl.
  unfold bind, try_catch, Client.do_fetch, emit, bind. rewrite Hkey. simpl.
  rewrite Hfetch. reflexivity.
Qed.

Example aborted_after_default_timeout :
  fst (Client.generateReport (fun _ _ _ => Rejected AbortError)
         sample_client january browser)
    = Throw (new_Error "CodeRabbit report generation timed out after 600s").
Proof. reflexivity. Qed.

(** A call sends at most one request: there is no retry. *)
Lemma generateReport_one_request fetch this request w :
  exists evs,
    events (snd (Client.generateReport fetch this request w))
      = (events w ++ evs)%list /\
    (length (fetches evs) <= 1)%nat.
Proof.
  unfold Client.generateReport.
  destruct (Client.isConfigured this); simpl.
  2: { exists []. rewrite app_nil_r. auto. }
  unfold bind, try_catch, Client.do_fetch, emit, bind, Client.response_json. simpl.
  destruct (fetch _ _ _) as [r|e]; unfold ret, throw; simpl.
  - destruct (ok r); simpl.
    + destruct (Response.body r); simpl;
        (eexists; split; [rewrite <- !app_assoc; reflexivity | simpl; lia]).
    + destruct (Response.body r) as [reason|e|e|data]; simpl.
      * eexists; split; [rewrite <- !app_assoc; reflexivity | simpl; lia].
      * destruct (trpc_error_new_Error (Response.status r) e) as [m ->]. simpl.
        eexists; split; [rewrite <- !app_assoc; reflexivity | simpl; lia].
      * destruct (std_error_new_Error (Response.status r)
                    (Some (CodeRabbitErrorResponse.message e))
                    (CodeRabbitErrorResponse.issues e)) as [m ->]. simpl.
        eexists; split; [rewrite <- !app_assoc; reflexivity | simpl; lia].
      * destruct (std_error_new_Error (Response.status r) None None) as [m ->]. simpl.
        eexists; split; [rewrite <- !app_assoc; reflexivity | simpl; lia].
  - destruct e as [name m|t]; simpl.
    + destruct (String.eqb name "AbortError"); simpl;
        (eexists; split; [rewrite <- !app_assoc; reflexivity | simpl; lia]).
    + eexists; split; [rewrite <- !app_assoc; reflexivity | simpl; lia].
Qed.

(* ------------------------------------------------------------------ *)
(** ** The localStorage adapter: listing, clearing, isolation *)

Section Sorting.

Variable A : Type.
Variable cmp : A -> A -> Z.

Lemma insert_by_perm (x : A) (l : list A) :
  Permutation (LocalStorageAdapter.insert_by cmp x l) (x :: l).
Proof.
  induction l as [|y l IH]; simpl; [apply Permutation_refl|].
  destruct (cmp x y <=? 0)%Z; [apply Permutation_refl|].
  apply perm_trans with (y :: x :: l); [now apply perm_skip | apply perm_swap].
Qed.

Lemma sort_by_perm (l : list A) :
  Permutation (LocalStorageAdapter.sort_by cmp l) l.
Proof.
  induction l as [|x l IH]; simpl; [apply perm_nil|].
  apply perm_trans with (x :: LocalStorageAdapter.sort_by cmp l);
    [apply insert_by_perm | now apply perm_skip].
Qed.

Lemma sort_by_length (l : list A) :
  length (LocalStorageAdapter.sort_by cmp l) = length l.
Proof. apply Permutation_length, sort_by_perm. Qed.

End Sorting.

Lemma insert_newest_sorted x l :
  StronglySorted newer l ->
  StronglySorted newer (LocalStorageAdapter.insert_by LocalStorageAdapter.newest_first x l).
Proof.
  induction 1 as [|y l Hs IH Hy]; simpl.
  - constructor; constructor.
  - unfold LocalStorageAdapter.newest_first at 1.
    destruct (StoredReport.createdAt y - StoredReport.createdAt x <=? 0)%Z eqn:E.
    + apply Z.leb_le in E. constructor; [now constructor|].
      constructor; [unfold newer; lia|].
      eapply Forall_impl; [|exact Hy]. unfold newer. intros b Hb. lia.
    + apply Z.leb_gt in E. constructor; [exact IH|].
      eapply Permutation_Forall;
        [apply Permutation_sym, insert_by_perm|].
      constructor; [unfold newer; lia | exact Hy].
Qed.

Lemma sort_newest_sorted l :
  StronglySorted newer (LocalStorageAdapter.sort_by LocalStorageAdapter.newest_first l).
Proof.
  induction l as [|x l IH]; simpl; [constructor | now apply insert_newest_sorted].
Qed.

(** Records of one creation time keep the order they are stored in. *)
Lemma insert_newest_stable (t : Z) x l :
  filter (fun r => (StoredReport.createdAt r =? t)%Z)
    (LocalStorageAdapter.insert_by LocalStorageAdapter.newest_first x l)
  = filter (fun r => (StoredReport.createdAt r =? t)%Z) (x :: l).
Proof.
  induction l as [|y l IH]; [reflexivity|].
  simpl LocalStorageAdapter.insert_by. unfold LocalStorageAdapter.newest_first at 1.
  destruct (StoredReport.createdAt y - StoredReport.createdAt x <=? 0)%Z eqn:E;
    [reflexivity|].
  apply Z.leb_gt in E.
  cbn [filter] in *. rewrite IH.
  destruct (StoredReport.createdAt x =? t)%Z eqn:Ex;
    destruct (StoredReport.createdAt y =? t)%Z eqn:Ey; try reflexivity.
  apply Z.eqb_eq in Ex, Ey. lia.
Qed.

Lemma sort_newest_stable (t : Z) l :
  filter (fun r => (StoredReport.createdAt r =? t)%Z)
    (LocalStorageAdapter.sort_by LocalStorageAdapter.newest_first l)
  = filter (fun r => (StoredReport.createdAt r =? t)%Z) l.
Proof.
  induction l as [|x l IH]; [reflexivity|].
  simpl LocalStorageAdapter.sort_by. rewrite insert_newest_stable.
  cbn [filter]. now rewrite IH.
Qed.

Lemma list_run key options w items :
  localStorage w = Some items ->
  LocalStorageAdapter.list key options w
  = (Normal
       (let sorted := LocalStorageAdapter.sort_by LocalStorageAdapter.newest_first
                        (reports_of key w) in
        match options with
        | Some o =>
            let start := match LocalStorageAdapter.ListOptions.offset o with
                         | Some n => n | None => 0%Z end in
            LocalStorageAdapter.ListReportsResponse.mk
              (LocalStorageAdapter.slice start
                 (start + match LocalStorageAdapter.ListOptions.limit o with
                          | Some n => n
                          | None => Z.of_nat (length (reports_of key w))
                          end)%Z sorted)
              (length sorted)
        | None => LocalStorageAdapter.ListReportsResponse.mk sorted (length sorted)
        end), w).
Proof.
  intros H. unfold LocalStorageAdapter.list, bind.
  rewrite (getReports_run _ _ _ H). now destruct options.
Qed.

Lemma firstn_beyond {A} (n m : nat) (l : list A) :
  (length l <= m)%nat -> firstn (Nat.min n m) l = firstn n l.
Proof.
  intros H. destruct (Nat.le_ge_cases n m) as [L|L].
  - now rewrite Nat.min_l.
  - rewrite Nat.min_r by exact L.
    rewrite !firstn_all2; [reflexivity | lia | lia].
Qed.

(** [slice] with a start and a count that are not negative. *)
Lemma slice_page {A} (start count : Z) (l : list A) :
  (0 <= start)%Z -> (0 <= count)%Z ->
  LocalStorageAdapter.slice start (start + count) l
  = firstn (Z.to_nat count) (skipn (Z.to_nat start) l).
Proof.
  intros Hs Hc. unfold LocalStorageAdapter.slice, LocalStorageAdapter.relative_index.
  destruct (start <? 0)%Z eqn:E1; [apply Z.ltb_lt in E1; lia|].
  destruct (start + count <? 0)%Z eqn:E2; [apply Z.ltb_lt in E2; lia|].
  set (len := Z.of_nat (length l)).
  destruct (Z.le_ge_cases len start) as [L|L].
  - rewrite (Z.min_r start len) by exact L.
    rewrite (Z.min_r (start + count) len) by lia.
    rewrite Z.sub_diag. simpl.
    rewrite (skipn_all2 l) by (unfold len in L; lia).
    now rewrite firstn_nil.
  - rewrite (Z.min_l start len) by exact L.
    replace (Z.to_nat (Z.min (start + count) len - start))
      with (Nat.min (Z.to_nat count) (length l - Z.to_nat start))%nat
      by (unfold len in *; lia).
    apply firstn_beyond. rewrite length_skipn. lia.
Qed.

(** X1.  Listing without options.  In a browser, [list()] leaves the world as
    it is and returns every stored record once, the most recently created
    first, records of one creation time in the order they are stored in;
    [total] is their number. *)
Theorem list_newest_first key w items :
  localStorage w = Some items ->
  exists resp,
    LocalStorageAdapter.list key None w = (Normal resp, w) /\
    LocalStorageAdapter.ListReportsResponse.total resp = length (reports_of key w) /\
    Permutation (LocalStorageAdapter.ListReportsResponse.reports resp)
                (reports_of key w) /\
    StronglySorted newer (LocalStorageAdapter.ListReportsResponse.reports resp) /\
    forall t,
      filter (fun r => (StoredReport.createdAt r =? t)%Z)
        (LocalStorageAdapter.ListReportsResponse.reports resp)
      = filter (fun r => (StoredReport.createdAt r =? t)%Z) (reports_of key w).
Proof.
  intros H. eexists. split; [exact (list_run key None w items H)|]. simpl.
  split; [apply sort_by_length|].
  split; [apply sort_by_perm|].
  split; [apply sort_newest_sorted|].
  intros t. apply sort_newest_stable.
Qed.

Lemma list_newest_first_witness :
  exists resp,
    LocalStorageAdapter.list LocalStorageAdapter.default_key None three_reports
      = (Normal resp, three_reports) /\
    LocalStorageAdapter.ListReportsResponse.total resp = 3%nat /\
    Permutation (LocalStorageAdapter.ListReportsResponse.reports resp)
                [stored_at "a" 10; stored_at "b" 30; stored_at "c" 20] /\
    StronglySorted newer (LocalStorageAdapter.ListReportsResponse.reports resp) /\
    forall t,
      filter (fun r => (StoredReport.createdAt r =? t)%Z)
        (LocalStorageAdapter.ListReportsResponse.reports resp)
      = filter (fun r => (StoredReport.createdAt r =? t)%Z)
          [stored_at "a" 10; stored_at "b" 30; stored_at "c" 20].
Proof.
  exact (list_newest_first LocalStorageAdapter.default_key three_reports _ eq_refl).
Defined.

Lemma list_page_run key w items o :
  localStorage w = Some items ->
  (0 <= match LocalStorageAdapter.ListOptions.offset o with
        | Some n => n | None => 0 end)%Z ->
  (0 <= match LocalStorageAdapter.ListOptions.limit o with
        | Some n => n | None => 0 end)%Z ->
  exists resp,
    LocalStorageAdapter.list key (Some o) w = (Normal resp, w) /\
    LocalStorageAdapter.ListReportsResponse.reports resp
    = firstn (match LocalStorageAdapter.ListOptions.limit o with
              | Some n => Z.to_nat n
              | None => length (reports_of key w)
              end)
        (skipn (match LocalStorageAdapter.ListOptions.offset o with
                | Some n => Z.to_nat n | None => 0%nat end)
           (LocalStorageAdapter.sort_by LocalStorageAdapter.newest_first
              (reports_of key w))) /\
    LocalStorageAdapter.ListReportsResponse.total resp = length (reports_of key w).
Proof.
  intros H Hoff Hlim. eexists. split; [exact (list_run key (Some o) w items H)|].
  simpl. split; [|apply sort_by_length].
  rewrite slice_page.
  - destruct (LocalStorageAdapter.ListOptions.offset o),
      (LocalStorageAdapter.ListOptions.limit o); simpl;
      now rewrite ?Nat2Z.id.
  - exact Hoff.
  - destruct (LocalStorageAdapter.ListOptions.limit o); lia.
Qed.

(** X2.  Pagination.  In a browser, with an offset and a limit that are not
    negative (an absent offset counts as 0, an absent limit as the number
    of records), [list(options)] returns the records of the newest-first
    arrangement from position [offset] on, at most [limit] of them, and
    [total] is the number of all stored records, whatever the page. *)
Theorem list_page key w items o :
  localStorage w = Some items ->
  (0 <= match LocalStorageAdapter.ListOptions.offset o with
        | Some n => n | None => 0 end)%Z ->
  (0 <= match LocalStorageAdapter.ListOptions.limit o with
        | Some n => n | None => 0 end)%Z ->
  exists resp,
    LocalStorageAdapter.list key (Some o) w = (Normal resp, w) /\
    LocalStorageAdapter.ListReportsResponse.reports resp
    = firstn (match LocalStorageAdapter.ListOptions.limit o with
              | Some n => Z.to_nat n
              | None => length (reports_of key w)
              end)
        (skipn (match LocalStorageAdapter.ListOptions.offset o with
                | Some n => Z.to_nat n | None => 0%nat end)
           (LocalStorageAdapter.sort_by LocalStorageAdapter.newest_first
              (reports_of key w))) /\
    LocalStorageAdapter.ListReportsResponse.total resp = length (reports_of key w).
Proof. exact (list_page_run key w items o). Qed.

Lemma list_page_witness :
  exists resp,
    LocalStorageAdapter.list LocalStorageAdapter.default_key
      (Some (LocalStorageAdapter.ListOptions.mk (Some 1%Z) (Some 1%Z))) three_reports
      = (Normal resp, three_reports) /\
    LocalStorageAdapter.ListReportsResponse.reports resp = [stored_at "c" 20] /\
    LocalStorageAdapter.ListReportsResponse.total resp = 3%nat.
Proof.
  apply (list_page LocalStorageAdapter.default_key three_reports _
           (LocalStorageAdapter.ListOptions.mk (Some 1%Z) (Some 1%Z)) eq_refl).
  - simpl. lia.
  - simpl. lia.
Defined.

(** X3.  The first page of one.  In a browser whose store is not empty,
    [list({ limit: 1, offset: 0 })] returns exactly one record, a stored one
    that no stored record is more recent than, and [total] is the number of
    all stored records. *)
Theorem list_most_recent key w items :
  localStorage w = Some items ->
  reports_of key w <> [] ->
  exists resp r,
    LocalStorageAdapter.list key
      (Some (LocalStorageAdapter.ListOptions.mk (Some 1%Z) (Some 0%Z))) w
      = (Normal resp, w) /\
    LocalStorageAdapter.ListReportsResponse.reports resp = [r] /\
    In r (reports_of key w) /\
    Forall (newer r) (reports_of key w) /\
    LocalStorageAdapter.ListReportsResponse.total resp = length (reports_of key w).
Proof.
  intros H Hne.
  destruct (list_page_run key w items
              (LocalStorageAdapter.ListOptions.mk (Some 1%Z) (Some 0%Z)) H)
    as (resp & Hl & Hr & Ht); [simpl; lia | simpl; lia |].
  simpl in Hr.
  pose proof (sort_by_perm _ LocalStorageAdapter.newest_first (reports_of key w)) as P.
  pose proof (sort_newest_sorted (reports_of key w)) as S.
  destruct (LocalStorageAdapter.sort_by LocalStorageAdapter.newest_first
              (reports_of key w)) as [|r rest] eqn:E.
  - apply Permutation_nil in P. contradiction.
  - exists resp, r. simpl in Hr.
    split; [exact Hl|]. split; [exact Hr|].
    split; [eapply Permutation_in; [exact P | now left]|].
    split; [|exact Ht].
    eapply Permutation_Forall; [exact P|].
    inversion S as [|? ? _ Hall]; subst.
    constructor; [unfold newer; lia | exact Hall].
Qed.

Lemma list_most_recent_witness :
  exists resp r,
    LocalStorageAdapter.list LocalStorageAdapter.default_key
      (Some (LocalStorageAdapter.ListOptions.mk (Some 1%Z) (Some 0%Z))) three_reports
      = (Normal resp, three_reports) /\
    LocalStorageAdapter.ListReportsResponse.reports resp = [r] /\
    In r [stored_at "a" 10; stored_at "b" 30; stored_at "c" 20] /\
    Forall (newer r) [stored_at "a" 10; stored_at "b" 30; stored_at "c" 20] /\
    LocalStorageAdapter.ListReportsResponse.total resp = 3%nat.
Proof.
  apply (list_most_recent LocalStorageAdapter.default_key three_reports _ eq_refl).
  discriminate.
Defined.

(** *** Outside a browser *)

(** X4.  Without [localStorage], every operation of the adapter throws the
    same "localStorage is not available" error and changes nothing. *)
Theorem not_in_browser key w :
  localStorage w = None ->
  let unavailable {A} : Completion A * World :=
    (Throw (new_Error LocalStorageAdapter.not_available), w) in
  (forall data, LocalStorageAdapter.create key data w = unavailable) /\
  (forall id rs d, LocalStorageAdapter.updateSuccess key id rs d w = unavailable) /\
  (forall id e d, LocalStorageAdapter.updateFailure key id e d w = unavailable) /\
  (forall id, LocalStorageAdapter.get key id w = unavailable) /\
  (forall options, LocalStorageAdapter.list key options w = unavailable) /\
  (forall id, LocalStorageAdapter.delete key id w = unavailable) /\
  LocalStorageAdapter.clear key w = unavailable.
Proof.
  intros H unavailable. unfold unavailable.
  unfold LocalStorageAdapter.create, LocalStorageAdapter.updateSuccess,
    LocalStorageAdapter.updateFailure, LocalStorageAdapter.get,
    LocalStorageAdapter.list, LocalStorageAdapter.delete, LocalStorageAdapter.clear,
    LocalStorageAdapter.getReports, LocalStorageAdapter.ensureBrowser, bind.
  rewrite H. repeat split.
Qed.

Lemma not_in_browser_witness :
  LocalStorageAdapter.get LocalStorageAdapter.default_key "a" server
  = (Throw (new_Error LocalStorageAdapter.not_available), server).
Proof.
  apply (not_in_browser LocalStorageAdapter.default_key server eq_refl).
Defined.

(** *** What an operation leaves alone *)

Lemma getItem_removeItem_other key key' items :
  key' <> key -> getItem key' (removeItem key items) = getItem key' items.
Proof.
  intros Hne. induction items as [|[k v] items IH]; simpl; [reflexivity|].
  destruct (String.eqb key k) eqn:E; simpl.
  - apply String.eqb_eq in E. subst k.
    destruct (String.eqb key' key) eqn:E'; [apply String.eqb_eq in E'; contradiction|].
    exact IH.
  - now rewrite IH.
Qed.

Lemma getItem_removeItem key items : getItem key (removeItem key items) = None.
Proof.
  induction items as [|[k v] items IH]; simpl; [reflexivity|].
  destruct (String.eqb key k) eqn:E; simpl; [exact IH | now rewrite E].
Qed.

Lemma getItem_setItem_other key key' v items :
  key' <> key -> getItem key' (setItem key v items) = getItem key' items.
Proof.
  intros Hne. unfold setItem. simpl.
  destruct (String.eqb key' key) eqn:E; [apply String.eqb_eq in E; contradiction|].
  now apply getItem_removeItem_other.
Qed.

Lemma reports_of_saved_other key key' l items w :
  key' <> key -> localStorage w = Some items ->
  reports_of key' (with_localStorage (Some (setItem key l items)) w)
  = reports_of key' w.
Proof.
  intros Hne H. unfold reports_of, with_localStorage. cbn [localStorage].
  rewrite H. now rewrite getItem_setItem_other.
Qed.

Lemma exec_throws_unchanged key op w :
  localStorage w = None -> snd (exec key op w) = w.
Proof.
  intros H. destruct op; simpl;
    unfold LocalStorageAdapter.create, LocalStorageAdapter.updateSuccess,
      LocalStorageAdapter.updateFailure, LocalStorageAdapter.delete,
      LocalStorageAdapter.getReports, LocalStorageAdapter.ensureBrowser, bind;
    now rewrite H.
Qed.

(** The stored array after an operation, in a browser. *)
Lemma exec_reports key op w items :
  localStorage w = Some items ->
  reports_of key (snd (exec key op w))
  = match op with
    | OpCreate data =>
        match LocalStorageAdapter.create key data w with
        | (_, w') => reports_of key w'
        end
    | OpUpdateSuccess id rs d =>
        LocalStorageAdapter.assign id (LocalStorageAdapter.set_success rs d)
          (reports_of key w)
    | OpUpdateFailure id e d =>
        LocalStorageAdapter.assign id (LocalStorageAdapter.set_failure e d)
          (reports_of key w)
    | OpDelete id =>
        filter (fun r => negb (String.eqb (StoredReport.id r) id)) (reports_of key w)
    end.
Proof.
  intros H. destruct op as [data|id rs d|id e d|id]; simpl.
  - unfold bind. now destruct (LocalStorageAdapter.create key data w) as [[?|?] ?].
  - destruct (LocalStorageAdapter.find id (reports_of key w)) eqn:F.
    + rewrite (updateSuccess_found _ _ rs d _ _ _ H F). simpl. apply reports_of_saved.
    + rewrite (updateSuccess_missing _ _ rs d _ _ H F). simpl.
      clear H. unfold LocalStorageAdapter.find in F.
      induction (reports_of key w) as [|x l IH]; simpl in *; [reflexivity|].
      destruct (String.eqb (StoredReport.id x) id); [discriminate|].
      now rewrite <- IH.
  - destruct (LocalStorageAdapter.find id (reports_of key w)) eqn:F.
    + rewrite (updateFailure_found _ _ e d _ _ _ H F). simpl. apply reports_of_saved.
    + rewrite (updateFailure_missing _ _ e d _ _ H F). simpl.
      clear H. unfold LocalStorageAdapter.find in F.
      induction (reports_of key w) as [|x l IH]; simpl in *; [reflexivity|].
      destruct (String.eqb (StoredReport.id x) id); [discriminate|].
      now rewrite <- IH.
  - rewrite (delete_run _ _ _ _ H). simpl. apply reports_of_saved.
Qed.

Lemma find_assign_other id id' f l :
  (forall x, StoredReport.id (f x) = StoredReport.id x) ->
  id' <> id ->
  LocalStorageAdapter.find id' (LocalStorageAdapter.assign id f l)
  = LocalStorageAdapter.find id' l.
Proof.
  intros Hid Hne. unfold LocalStorageAdapter.find.
  induction l as [|x l IH]; simpl; [reflexivity|].
  destruct (String.eqb (StoredReport.id x) id) eqn:E; simpl.
  - rewrite Hid. apply String.eqb_eq in E. rewrite E.
    destruct (String.eqb id id') eqn:E'; [apply String.eqb_eq in E'; congruence|].
    reflexivity.
  - now rewrite IH.
Qed.

Lemma find_filter_other id id' l :
  id' <> id ->
  LocalStorageAdapter.find id'
    (filter (fun r => negb (String.eqb (StoredReport.id r) id)) l)
  = LocalStorageAdapter.find id' l.
Proof.
  intros Hne. unfold LocalStorageAdapter.find.
  induction l as [|x l IH]; simpl; [reflexivity|].
  destruct (String.eqb (StoredReport.id x) id) eqn:E; simpl.
  - apply String.eqb_eq in E. rewrite E.
    destruct (String.eqb id id') eqn:E'; [apply String.eqb_eq in E'; congruence|].
    exact IH.
  - now rewrite IH.
Qed.

Lemma find_app_other id' l r :
  StoredReport.id r <> id' ->
  LocalStorageAdapter.find id' (l ++ [r])%list = LocalStorageAdapter.find id' l.
Proof.
  intros Hne. unfold LocalStorageAdapter.find.
  induction l as [|x l IH]; simpl.
  - destruct (String.eqb (StoredReport.id r) id') eqn:E;
      [apply String.eqb_eq in E; contradiction | reflexivity].
  - now rewrite IH.
Qed.

(** X5.  An operation on one id leaves the records of every other id as they
    are.  For [create], [updateSuccess], [updateFailure] and [delete], in
    any world, [get] of an id other than the one the operation is about (for
    [create], the id it allocates) gives after the operation what it gave
    before. *)
Theorem other_ids_untouched key op id' w :
  id' <> target op w ->
  fst (LocalStorageAdapter.get key id' (snd (exec key op w)))
  = fst (LocalStorageAdapter.get key id' w).
Proof.
  intros Hne.
  destruct (localStorage w) as [items|] eqn:H.
  2: { now rewrite (exec_throws_unchanged _ _ _ H). }
  assert (H' : exists items', localStorage (snd (exec key op w)) = Some items').
  { destruct op as [data|id rs d|id e d|id]; cbn [exec].
    - destruct (create_world key data w items H) as (r & E & _).
      unfold bind. rewrite E. simpl. eexists; reflexivity.
    - destruct (LocalStorageAdapter.find id (reports_of key w)) eqn:F.
      + rewrite (updateSuccess_found _ _ rs d _ _ _ H F). eexists; reflexivity.
      + rewrite (updateSuccess_missing _ _ rs d _ _ H F). eexists; exact H.
    - destruct (LocalStorageAdapter.find id (reports_of key w)) eqn:F.
      + rewrite (updateFailure_found _ _ e d _ _ _ H F). eexists; reflexivity.
      + rewrite (updateFailure_missing _ _ e d _ _ H F). eexists; exact H.
    - rewrite (delete_run _ _ _ _ H). eexists; reflexivity. }
  destruct H' as [items' H'].
  rewrite (get_run _ _ _ _ H'), (get_run _ _ _ _ H). simpl. f_equal.
  rewrite (exec_reports _ _ _ _ H).
  destruct op as [data|id rs d|id e d|id]; simpl in Hne.
  - destruct (create_run key data w items H) as (w1 & r & -> & _ & -> & Hid & _).
    apply find_app_other. congruence.
  - now apply find_assign_other.
  - now apply find_assign_other.
  - now apply find_filter_other.
Qed.

Lemma other_ids_untouched_witness :
  fst (LocalStorageAdapter.get LocalStorageAdapter.default_key "b"
         (snd (exec LocalStorageAdapter.default_key (OpDelete "a") three_reports)))
  = Normal (Some (stored_at "b" 30)).
Proof.
  apply (other_ids_untouched LocalStorageAdapter.default_key (OpDelete "a") "b"
           three_reports).
  discriminate.
Defined.

Lemma exec_storage key op w items :
  localStorage w = Some items ->
  localStorage (snd (exec key op w)) = Some items \/
  exists l, localStorage (snd (exec key op w)) = Some (setItem key l items).
Proof.
  intros H. destruct op as [data|id rs d|id e d|id]; cbn [exec].
  - destruct (create_world key data w items H) as (r & E & _).
    unfold bind. rewrite E. right. eexists. reflexivity.
  - destruct (LocalStorageAdapter.find id (reports_of key w)) eqn:F.
    + rewrite (updateSuccess_found _ _ rs d _ _ _ H F). right. eexists. reflexivity.
    + rewrite (updateSuccess_missing _ _ rs d _ _ H F). now left.
  - destruct (LocalStorageAdapter.find id (reports_of key w)) eqn:F.
    + rewrite (updateFailure_found _ _ e d _ _ _ H F). right. eexists. reflexivity.
    + rewrite (updateFailure_missing _ _ e d _ _ H F). now left.
  - rewrite (delete_run _ _ _ _ H). right. eexists. reflexivity.
Qed.

(** X6.  Adapters with different keys do not see each other.  Whatever
    sequence of [create], [updateSuccess], [updateFailure] and [delete] an
    adapter with key [key] performs, and also when it clears its store, the
    array stored under any other key is what it was. *)
Theorem other_keys_untouched key key' ops w :
  key' <> key ->
  reports_of key' (run key ops w) = reports_of key' w /\
  reports_of key' (snd (LocalStorageAdapter.clear key (run key ops w)))
  = reports_of key' w.
Proof.
  intros Hne.
  assert (R : forall ops w, reports_of key' (run key ops w) = reports_of key' w).
  { clear ops w. induction ops as [|op ops IH]; intros w; simpl; [reflexivity|].
    rewrite IH.
    destruct (localStorage w) as [items|] eqn:H.
    - destruct (exec_storage key op w items H) as [E|[l E]];
        unfold reports_of; rewrite E, H; [reflexivity|].
      now rewrite getItem_setItem_other.
    - now rewrite (exec_throws_unchanged _ _ _ H). }
  split; [apply R|].
  rewrite <- (R ops w).
  unfold LocalStorageAdapter.clear, LocalStorageAdapter.ensureBrowser, bind.
  destruct (localStorage (run key ops w)) as [items|] eqn:H; simpl; [|reflexivity].
  unfold reports_of. simpl. rewrite H. now rewrite getItem_removeItem_other.
Qed.

Lemma other_keys_untouched_witness :
  reports_of LocalStorageAdapter.default_key
    (run "scratch" [OpCreate pending_data; OpDelete "a"] three_reports)
  = [stored_at "a" 10; stored_at "b" 30; stored_at "c" 20] /\
  reports_of LocalStorageAdapter.default_key
    (snd (LocalStorageAdapter.clear "scratch"
            (run "scratch" [OpCreate pending_data; OpDelete "a"] three_reports)))
  = [stored_at "a" 10; stored_at "b" 30; stored_at "c" 20].
Proof.
  apply (other_keys_untouched "scratch" LocalStorageAdapter.default_key
           [OpCreate pending_data; OpDelete "a"] three_reports).
  discriminate.
Defined.

(** X7.  Clearing.  In a browser, [clear] returns normally; afterwards the
    store of the adapter is empty: [get] gives null for every id and
    [list], with or without options, gives no record and a total of 0. *)
Theorem clear_empties key w items :
  localStorage w = Some items ->
  exists w',
    LocalStorageAdapter.clear key w = (Normal tt, w') /\
    (forall id, LocalStorageAdapter.get key id w' = (Normal None, w')) /\
    (forall options,
        LocalStorageAdapter.list key options w'
        = (Normal (LocalStorageAdapter.ListReportsResponse.mk [] 0), w')).
Proof.
  intros H.
  unfold LocalStorageAdapter.clear, LocalStorageAdapter.ensureBrowser, bind.
  rewrite H. eexists. split; [reflexivity|].
  set (w' := with_localStorage (Some (removeItem key items)) w).
  assert (E : reports_of key w' = []).
  { unfold reports_of, w'. simpl. now rewrite getItem_removeItem. }
  split.
  - intros id. erewrite get_run by reflexivity. now rewrite E.
  - intros options. erewrite list_run by reflexivity. rewrite E. simpl.
    destruct options as [o|]; [|reflexivity].
    unfold LocalStorageAdapter.slice. simpl length.
    now rewrite skipn_nil, firstn_nil.
Qed.

Lemma clear_empties_witness :
  exists w',
    LocalStorageAdapter.clear LocalStorageAdapter.default_key three_reports
      = (Normal tt, w') /\
    (forall id, LocalStorageAdapter.get LocalStorageAdapter.default_key id w'
                = (Normal None, w')) /\
    (forall options,
        LocalStorageAdapter.list LocalStorageAdapter.default_key options w'
        = (Normal (LocalStorageAdapter.ListReportsResponse.mk [] 0), w')).
Proof.
  exact (clear_empties LocalStorageAdapter.default_key three_reports _ eq_refl).
Defined.

Lemma removeItem_idempotent key items :
  removeItem key (removeItem key items) = removeItem key items.
Proof.
  induction items as [|[k v] items IH]; simpl; [reflexivity|].
  destruct (String.eqb key k) eqn:E; simpl; [exact IH | now rewrite E, IH].
Qed.

Lemma filter_idempotent {A} (p : A -> bool) l : filter p (filter p l) = filter p l.
Proof.
  induction l as [|x l IH]; simpl; [reflexivity|].
  destruct (p x) eqn:E; simpl; [now rewrite E, IH | exact IH].
Qed.

(** X8.  [delete] is idempotent.  In any world, deleting an id a second time
    leaves the world exactly as the first deletion made it. *)
Theorem delete_idempotent key id w :
  snd (LocalStorageAdapter.delete key id (snd (LocalStorageAdapter.delete key id w)))
  = snd (LocalStorageAdapter.delete key id w).
Proof.
  destruct (localStorage w) as [items|] eqn:H.
  - rewrite (delete_run _ _ _ _ H). cbn [snd fst].
    erewrite delete_run by reflexivity. cbn [snd].
    rewrite reports_of_saved, filter_idempotent.
    unfold with_localStorage. simpl. f_equal. f_equal.
    unfold setItem. simpl.
    now rewrite String.eqb_refl, removeItem_idempotent.
  - assert (E : LocalStorageAdapter.delete key id w
                = (Throw (new_Error LocalStorageAdapter.not_available), w)).
    { unfold LocalStorageAdapter.delete, LocalStorageAdapter.getReports,
        LocalStorageAdapter.ensureBrowser, bind. now rewrite H. }
    rewrite E. simpl. now rewrite E.
Qed.

Lemma find_app_found id l r x :
  LocalStorageAdapter.find id l = Some x ->
  LocalStorageAdapter.find id (l ++ [r])%list = Some x.
Proof.
  unfold LocalStorageAdapter.find.
  induction l as [|y l IH]; simpl; [discriminate|].
  destruct (String.eqb (StoredReport.id y) id); auto.
Qed.

(** X9.  [create] never overwrites.  In a browser, [create] returns normally,
    the store has one record more, and every id that [get] found a record
    for before still gets the same record, also when the id allocated for
    the new record is one the store already has: the newer record is then
    out of [get]'s reach. *)
Theorem create_never_overwrites key data w items :
  localStorage w = Some items ->
  exists w',
    LocalStorageAdapter.create key data w = (Normal (next_id w), w') /\
    length (reports_of key w') = S (length (reports_of key w)) /\
    forall id,
      LocalStorageAdapter.find id (reports_of key w) <> None ->
      fst (LocalStorageAdapter.get key id w') = fst (LocalStorageAdapter.get key id w).
Proof.
  intros H.
  destruct (create_run key data w items H) as (w' & r & Hc & Hls & Hr & _).
  exists w'. split; [exact Hc|].
  split; [rewrite Hr, length_app; simpl; lia|].
  intros id Hfound.
  destruct (localStorage w') as [items'|] eqn:H'; [|congruence].
  rewrite (get_run _ _ _ _ H'), (get_run _ _ _ _ H), Hr. simpl. f_equal.
  destruct (LocalStorageAdapter.find id (reports_of key w)) as [x|] eqn:F;
    [|congruence].
  now apply find_app_found.
Qed.

Lemma create_never_overwrites_witness :
  exists w',
    LocalStorageAdapter.create LocalStorageAdapter.default_key pending_data three_reports
      = (Normal (next_id three_reports), w') /\
    length (reports_of LocalStorageAdapter.default_key w') = 4%nat /\
    forall id,
      LocalStorageAdapter.find id (reports_of LocalStorageAdapter.default_key three_reports)
        <> None ->
      fst (LocalStorageAdapter.get LocalStorageAdapter.default_key id w')
      = fst (LocalStorageAdapter.get LocalStorageAdapter.default_key id three_reports).
Proof.
  exact (create_never_overwrites LocalStorageAdapter.default_key pending_data
           three_reports _ eq_refl).
Defined.

(* ------------------------------------------------------------------ *)
(** ** The client: configuration, request and outcomes *)

(** X10.  An explicit API key wins.  A client built from a configuration that
    gives an API key has that key whatever the host environment offers,
    the empty string included: it is configured exactly when the given key
    is not empty, also where the environment has a key of its own. *)
Theorem explicit_apiKey_wins host config k :
  Client.CodeRabbitClientConfig.apiKey config = Some k ->
  Client.CodeRabbitClient.apiKey (Client.createCodeRabbitClient host (Some config))
    = Some k /\
  Client.isConfigured (Client.createCodeRabbitClient host (Some config))
    = negb (String.eqb k "").
Proof.
  intros H. unfold Client.createCodeRabbitClient, Client.constructor, Client.isConfigured.
  simpl. rewrite H. split; [reflexivity|]. now destruct k.
Qed.

Lemma explicit_apiKey_wins_witness :
  let host := Client.mkHost (Some (fun _ => Some "env-key")) None in
  let config := Client.CodeRabbitClientConfig.mk (Some "") None None in
  Client.CodeRabbitClient.apiKey (Client.createCodeRabbitClient host (Some config))
    = Some "" /\
  Client.isConfigured (Client.createCodeRabbitClient host (Some config)) = false.
Proof.
  intros host config.
  exact (explicit_apiKey_wins host config "" eq_refl).
Defined.

(** X11.  The environment is the fallback.  Without an explicit key, with or
    without a configuration object, the key is the variable
    CODERABBIT_API_KEY of [process.env] when there is a [process.env]
    ([Deno.env] is then not looked at, also when the variable is missing),
    else of [Deno.env], else null; and the client is configured exactly
    when that key is a non-empty string. *)
Theorem environment_fallback host config :
  match config with
  | Some c => Client.CodeRabbitClientConfig.apiKey c = None
  | None => True
  end ->
  let this := Client.createCodeRabbitClient host config in
  let env_key :=
    match Client.process_env host, Client.Deno_env host with
    | Some env, _ => env "CODERABBIT_API_KEY"
    | None, Some env => env "CODERABBIT_API_KEY"
    | None, None => None
    end in
  Client.CodeRabbitClient.apiKey this = env_key /\
  Client.isConfigured this = truthy_opt env_key.
Proof.
  intros H this env_key. unfold this, env_key, Client.createCodeRabbitClient,
    Client.constructor, Client.isConfigured, Client.getApiKeyFromEnv.
  destruct config as [c|]; simpl; rewrite ?H; simpl;
    (split; [now destruct (Client.process_env host), (Client.Deno_env host)|]);
    destruct (Client.process_env host) as [env|], (Client.Deno_env host) as [env'|];
      try reflexivity;
      match goal with |- context [?e "CODERABBIT_API_KEY"] =>
        destruct (e "CODERABBIT_API_KEY") as [[|]|] end; reflexivity.
Qed.

Lemma environment_fallback_witness :
  let host := Client.mkHost (Some (fun _ => None)) (Some (fun _ => Some "deno-key")) in
  Client.CodeRabbitClient.apiKey (Client.createCodeRabbitClient host None) = None /\
  Client.isConfigured (Client.createCodeRabbitClient host None) = false.
Proof.
  intros host. exact (environment_fallback host None I).
Defined.

Lemma fetches_app a b : fetches (a ++ b) = (fetches a ++ fetches b)%list.
Proof. unfold fetches. apply flat_map_app. Qed.

(** X12.  One request, and the timer is always cleared.  A configured client
    does the same to the outside whatever the transport answers: it sets the
    timer with its timeout, sends one POST to
    [baseUrl + "/v1/report.generate"] with its API key as header and the
    payload of the request as body, and clears the timer, once or twice,
    before it returns or throws. *)
Theorem generateReport_effects fetch this request w key :
  Client.CodeRabbitClient.apiKey this = Some key -> key <> "" ->
  exists cleared,
    events (snd (Client.generateReport fetch this request w))
    = (events w
       ++ [EvSetTimeout (Client.CodeRabbitClient.timeout this);
           EvFetch (Client.CodeRabbitClient.baseUrl this ++ "/v1/report.generate")
                   key (JObject (Client.requestBody request))]
       ++ cleared)%list /\
    (cleared = [EvClearTimeout] \/ cleared = [EvClearTimeout; EvClearTimeout]).
Proof.
  intros Hkey Hne.
  unfold Client.generateReport.
  rewrite (isConfigured_key _ _ Hkey Hne). simpl.
  unfold bind, try_catch, Client.do_fetch, emit, bind, Client.response_json.
  rewrite Hkey. simpl.
  change (Client.endpoint this)
    with (Client.CodeRabbitClient.baseUrl this ++ "/v1/report.generate").
  destruct (fetch _ _ _) as [r|e]; unfold ret, throw; simpl.
  - destruct (ok r); simpl.
    + destruct (Response.body r); simpl;
        (eexists; split; [rewrite <- !app_assoc; reflexivity | auto]).
    + destruct (Response.body r) as [reason|e|e|data]; simpl.
      * eexists; split; [rewrite <- !app_assoc; reflexivity | auto].
      * destruct (trpc_error_new_Error (Response.status r) e) as [m ->]. simpl.
        eexists; split; [rewrite <- !app_assoc; reflexivity | auto].
      * destruct (std_error_new_Error (Response.status r)
                    (Some (CodeRabbitErrorResponse.message e))
                    (CodeRabbitErrorResponse.issues e)) as [m ->]. simpl.
        eexists; split; [rewrite <- !app_assoc; reflexivity | auto].
      * destruct (std_error_new_Error (Response.status r) None None) as [m ->]. simpl.
        eexists; split; [rewrite <- !app_assoc; reflexivity | auto].
  - destruct e as [name m|t]; simpl.
    + destruct (String.eqb name "AbortError"); simpl;
        (eexists; split; [rewrite <- !app_assoc; reflexivity | auto]).
    + eexists; split; [rewrite <- !app_assoc; reflexivity | auto].
Qed.

Lemma generateReport_effects_witness :
  exists cleared,
    events (snd (Client.generateReport (answering 500 (ErrorBody boom))
                   sample_client january browser))
    = ([] ++ [EvSetTimeout 600000;
              EvFetch "https://api.coderabbit.ai/api/v1/report.generate" "cr-key"
                      (JObject (Client.requestBody january))]
       ++ cleared)%list /\
    (cleared = [EvClearTimeout] \/ cleared = [EvClearTimeout; EvClearTimeout]).
Proof.
  apply (generateReport_effects (answering 500 (ErrorBody boom)) sample_client january
           browser "cr-key").
  - reflexivity.
  - discriminate.
Defined.

(** X13.  When the client returns.  For a configured client, when the
    transport resolves with a status in 200-299 and a body
    [{ result: { data } }] whose [data] is an array, [generateReport]
    returns that array as it came, empty or not and whatever its entries,
    after one request and with the timer cleared once. *)
Theorem generateReport_returns_data fetch this request w key status data :
  Client.CodeRabbitClient.apiKey this = Some key -> key <> "" ->
  fetch (Client.endpoint this) key (JObject (Client.requestBody request))
    = Resolved (Response.mk status (ResultBody data)) ->
  (200 <= status)%N -> (status <= 299)%N ->
  fst (Client.generateReport fetch this request w) = Normal data /\
  events (snd (Client.generateReport fetch this request w))
  = (events w
     ++ [EvSetTimeout (Client.CodeRabbitClient.timeout this);
         EvFetch (Client.CodeRabbitClient.baseUrl this ++ "/v1/report.generate")
                 key (JObject (Client.requestBody request));
         EvClearTimeout])%list.
Proof.
  intros Hkey Hne Hfetch H1 H2.
  unfold Client.generateReport.
  rewrite (isConfigured_key _ _ Hkey Hne). simpl.
  unfold bind, try_catch, Client.do_fetch, emit, bind. rewrite Hkey. simpl.
  rewrite Hfetch. unfold ret, ok. simpl.
  apply N.leb_le in H1, H2. rewrite H1, H2. simpl.
  split; [reflexivity|]. now rewrite <- !app_assoc.
Qed.

Lemma generateReport_returns_data_witness :
  fst (Client.generateReport (answering 200 (ResultBody sprint_results))
         sample_client january browser) = Normal sprint_results /\
  events (snd (Client.generateReport (answering 200 (ResultBody sprint_results))
                 sample_client january browser))
  = ([] ++ [EvSetTimeout 600000;
            EvFetch "https://api.coderabbit.ai/api/v1/report.generate" "cr-key"
                    (JObject (Client.requestBody january));
            EvClearTimeout])%list.
Proof.
  apply (generateReport_returns_data (answering 200 (ResultBody sprint_results))
           sample_client january browser "cr-key" 200 sprint_results).
  - reflexivity.
  - discriminate.
  - reflexivity.
  - discriminate.
  - discriminate.
Defined.

(** X14.  A rejected request.  When [fetch] rejects with anything but an
    [Error] named AbortError (a network failure, say), a configured client
    throws that very value, unchanged. *)
Theorem generateReport_rejected fetch this request w key e :
  Client.CodeRabbitClient.apiKey this = Some key -> key <> "" ->
  fetch (Client.endpoint this) key (JObject (Client.requestBody request)) = Rejected e ->
  match e with
  | JsError name _ => name <> "AbortError"
  | JsOther _ => True
  end ->
  fst (Client.generateReport fetch this request w) = Throw e.
Proof.
  intros Hkey Hne Hfetch He.
  unfold Client.generateReport.
  rewrite (isConfigured_key _ _ Hkey Hne). simpl.
  unfold bind, try_catch, Client.do_fetch, emit, bind. rewrite Hkey. simpl.
  rewrite Hfetch. unfold throw. simpl.
  destruct e as [name m|t]; [|reflexivity].
  destruct (String.eqb name "AbortError") eqn:E; [|reflexivity].
  apply String.eqb_eq in E. contradiction.
Qed.

Lemma generateReport_rejected_witness :
  fst (Client.generateReport (fun _ _ _ => Rejected (JsError "TypeError" "Failed to fetch"))
         sample_client january browser)
  = Throw (JsError "TypeError" "Failed to fetch").
Proof.
  apply (generateReport_rejected _ sample_client january browser "cr-key").
  - reflexivity.
  - discriminate.
  - reflexivity.
  - discriminate.
Defined.

Lemma trpc_error_status_free s1 s2 e :
  TRPCError.message (CodeRabbitTRPCErrorResponse.error e) <> "" ->
  Client.trpc_error s1 e = Client.trpc_error s2 e.
Proof.
  intros Hm. unfold Client.trpc_error.
  destruct (value_truthy _); [reflexivity|].
  unfold or_else.
  destruct (TRPCError.message (CodeRabbitTRPCErrorResponse.error e)); [congruence|].
  reflexivity.
Qed.

(** X15.  The envelope decides, not the status.  For an error body with an
    [error] object whose message is not empty, what a configured client
    throws is the same for every status outside 200-299: the status-code
    map of the flat shape is not consulted, a 401 included. *)
Theorem envelope_ignores_status this request w key s1 s2 e :
  Client.CodeRabbitClient.apiKey this = Some key -> key <> "" ->
  TRPCError.message (CodeRabbitTRPCErrorResponse.error e) <> "" ->
  ok (Response.mk s1 (TRPCErrorBody e)) = false ->
  ok (Response.mk s2 (TRPCErrorBody e)) = false ->
  fst (Client.generateReport (answering s1 (TRPCErrorBody e)) this request w)
  = fst (Client.generateReport (answering s2 (TRPCErrorBody e)) this request w).
Proof.
  intros Hkey Hne Hm H1 H2.
  rewrite (generateReport_not_ok _ _ _ _ _ _ _ Hkey Hne eq_refl H1).
  rewrite (generateReport_not_ok _ _ _ _ _ _ _ Hkey Hne eq_refl H2).
  simpl. now rewrite (trpc_error_status_free s1 s2).
Qed.

Lemma envelope_ignores_status_witness :
  fst (Client.generateReport (answering 401 (TRPCErrorBody (envelope "x" "NOT_FOUND")))
         sample_client january browser)
  = Throw (new_Error "x").
Proof.
  apply (envelope_ignores_status sample_client january browser "cr-key" 401 500
           (envelope "x" "NOT_FOUND")).
  - reflexivity.
  - discriminate.
  - discriminate.
  - reflexivity.
  - reflexivity.
Defined.

Lemma member_app k a b :
  member k (a ++ b) = match member k a with Some v => Some v | None => member k b end.
Proof.
  induction a as [|[k' v] a IH]; simpl; [reflexivity|].
  destruct (String.eqb k k'); [reflexivity | exact IH].
Qed.

Lemma member_spread k key v :
  member k (Client.spread key v)
  = if String.eqb k key && truthy_opt v then option_map JString v else None.
Proof.
  unfold Client.spread. destruct v as [s|]; simpl.
  - destruct (truthy s); simpl; [|now rewrite andb_false_r].
    now destruct (String.eqb k key).
  - now rewrite andb_false_r.
Qed.

Lemma keys_spread_eq key v :
  keys (Client.spread key v) = if truthy_opt v then [key] else [].
Proof. unfold Client.spread. destruct v as [s|]; simpl; [now destruct (truthy s)|reflexivity]. Qed.

(** X16.  The payload carries the request's values.  Each optional member of
    the payload, when present, is the value the request gives: [prompt] and
    [orgId] as they are, [promptTemplate], [groupBy] and [subgroupBy] by
    their names on the wire; and no key occurs twice. *)
Theorem requestBody_values (request : ReportGenerateRequest.t) :
  let body := Client.requestBody request in
  member "prompt" body
    = (if truthy_opt (ReportGenerateRequest.prompt request)
       then option_map JString (ReportGenerateRequest.prompt request) else None) /\
  member "promptTemplate" body
    = option_map (fun t => JString (PromptTemplate_text t))
        (ReportGenerateRequest.promptTemplate request) /\
  member "groupBy" body
    = option_map (fun g => JString (GroupBy_text g))
        (ReportGenerateRequest.groupBy request) /\
  member "subgroupBy" body
    = option_map (fun g => JString (GroupBy_text g))
        (ReportGenerateRequest.subgroupBy request) /\
  member "orgId" body
    = (if truthy_opt (ReportGenerateRequest.orgId request)
       then option_map JString (ReportGenerateRequest.orgId request) else None) /\
  NoDup (keys body).
Proof.
  destruct request as [sr f t p pt ps g sg o]; unfold Client.requestBody; simpl.
  repeat split.
  - rewrite !member_app, !member_spread. simpl. now destruct p as [[|? ?]|].
  - rewrite !member_app, !member_spread. simpl. now destruct pt as [[]|].
  - rewrite !member_app, !member_spread. simpl. now destruct g as [[]|].
  - rewrite !member_app, !member_spread. simpl. now destruct sg as [[]|].
  - rewrite !member_app, !member_spread. simpl. now destruct o as [[|? ?]|].
  - unfold keys. simpl. rewrite !map_app.
    change (map fst) with keys. rewrite !keys_spread_eq.
    rewrite truthy_PromptTemplate, !truthy_GroupBy.
    destruct (truthy_opt p), (is_some pt), (is_some g), (is_some sg), (truthy_opt o);
      simpl; repeat constructor; simpl; intuition discriminate.
Qed.

(* ------------------------------------------------------------------ *)
(** ** The orchestration hook: the other paths *)

Lemma onSuccess_calls_app a b :
  onSuccess_calls (a ++ b) = (onSuccess_calls a ++ onSuccess_calls b)%list.
Proof. unfold onSuccess_calls. apply flat_map_app. Qed.

(** X17.  [isGenerating] is always reset.  Whatever the client, the adapter
    and the callbacks do, and whether [generateReport] returns or throws,
    [isGenerating] is false when it is over. *)
Theorem generateReport_resets_isGenerating client options request w :
  isGenerating (snd (UseCodeRabbit.generateReport client options request w)) = false.
Proof.
  rewrite generateReport_prelude. unfold try_finally.
  match goal with |- context [let (r, w') := ?c in _] => destruct c as [r w'] end.
  reflexivity.
Qed.

(** The pending step with the localStorage adapter, in a browser. *)
Lemma create_pending_run key o request w items :
  UseCodeRabbit.Options.storage o = Some (LocalStorageAdapter.adapter key) ->
  localStorage w = Some items ->
  UseCodeRabbit.create_pending (Some o) request (started w)
  = (Normal (Some (hook_id w)),
     mkWorld (Some (setItem key (reports_of key w ++ [hook_record request w]) items))
             (clock w) (S (S (S (clock_reads w)))) (random36 w) (S (random_reads w))
             (events w) true None).
Proof.
  intros Hst H.
  unfold UseCodeRabbit.create_pending, UseCodeRabbit.field. rewrite Hst.
  simpl ReportStorageAdapter.create.
  unfold bind at 1. unfold LocalStorageAdapter.create, bind.
  rewrite (getReports_run key (started w) items H).
  unfold Date_now, Math_random_base36, ret. simpl.
  erewrite saveReports_run by (simpl; exact H).
  reflexivity.
Qed.

(** The handler on a stored record, with an error callback, if any, that
    returns and is quiet. *)
Lemma handle_failure_quiet key o startTime id err w items r :
  UseCodeRabbit.Options.storage o = Some (LocalStorageAdapter.adapter key) ->
  (forall cb, UseCodeRabbit.Options.onError o = Some cb ->
     forall w1, exists w2,
       cb (UseCodeRabbit.message_of err) w1 = (Normal tt, w2) /\ quiet w1 w2) ->
  truthy id = true ->
  localStorage w = Some items ->
  LocalStorageAdapter.find id (reports_of key w) = Some r ->
  exists w',
    UseCodeRabbit.handle_failure (Some o) startTime (Some id) err w = (Normal None, w') /\
    localStorage w'
      = Some (setItem key
                (LocalStorageAdapter.assign id
                   (LocalStorageAdapter.set_failure (UseCodeRabbit.message_of err)
                      (clock w (clock_reads w) - startTime))
                   (reports_of key w)) items) /\
    fetches (events w') = fetches (events w) /\
    onSuccess_calls (events w') = onSuccess_calls (events w) /\
    onError_calls (events w')
      = (onError_calls (events w)
         ++ if is_some (UseCodeRabbit.Options.onError o)
            then [UseCodeRabbit.message_of err] else [])%list.
Proof.
  intros Hst Hquiet Hid H F.
  unfold UseCodeRabbit.handle_failure, UseCodeRabbit.stored, UseCodeRabbit.field.
  rewrite Hst, Hid.
  unfold bind at 1. unfold Date_now at 1.
  unfold bind at 1. unfold setError at 1.
  unfold bind at 1. simpl ReportStorageAdapter.updateFailure.
  erewrite updateFailure_found; [| exact H | exact F].
  unfold bind at 1.
  destruct (UseCodeRabbit.Options.onError o) as [cb|] eqn:Hcb.
  - unfold bind at 1. unfold emit at 1.
    match goal with
    | |- context [cb _ ?w1] =>
        destruct (Hquiet cb eq_refl w1) as (w2 & Hc & Hl & _ & _ & Hf & He & Hs)
    end.
    rewrite Hc. unfold ret. eexists. split; [reflexivity|].
    simpl in Hl, Hf, He, Hs.
    rewrite fetches_app in Hf. rewrite onError_calls_app in He.
    rewrite onSuccess_calls_app in Hs. simpl in Hf, He, Hs.
    rewrite app_nil_r in Hf, Hs.
    repeat split; simpl; assumption.
  - unfold ret. eexists. split; [reflexivity|]. simpl.
    rewrite app_nil_r. repeat split.
Qed.

Lemma find_hook_record key request w :
  LocalStorageAdapter.find (hook_id w) (reports_of key w) = None ->
  LocalStorageAdapter.find (hook_id w)
    (reports_of key w ++ [hook_record request w])%list
  = Some (hook_record request w).
Proof. intros F. now apply find_app_fresh. Qed.

(** The failure path with the localStorage adapter, in full. *)
Lemma generateReport_failure_run key o client request err w items :
  UseCodeRabbit.Options.storage o = Some (LocalStorageAdapter.adapter key) ->
  localStorage w = Some items ->
  LocalStorageAdapter.find (hook_id w) (reports_of key w) = None ->
  (forall w1, exists w2, client request w1 = (Throw err, w2) /\ quiet w1 w2) ->
  (forall cb, UseCodeRabbit.Options.onError o = Some cb ->
     forall w1, exists w2,
       cb (UseCodeRabbit.message_of err) w1 = (Normal tt, w2) /\ quiet w1 w2) ->
  exists w',
    UseCodeRabbit.generateReport client (Some o) request w = (Normal None, w') /\
    LocalStorageAdapter.get key (hook_id w) w'
      = (Normal (Some (LocalStorageAdapter.set_failure (UseCodeRabbit.message_of err)
                         (clock w (3 + clock_reads w) - clock w (clock_reads w))
                         (hook_record request w))), w') /\
    fetches (events w') = fetches (events w) /\
    onSuccess_calls (events w') = onSuccess_calls (events w) /\
    onError_calls (events w')
      = (onError_calls (events w)
         ++ if is_some (UseCodeRabbit.Options.onError o)
            then [UseCodeRabbit.message_of err] else [])%list.
Proof.
  intros Hst H Hfresh Hclient Hquiet.
  rewrite generateReport_prelude. fold (started w).
  unfold try_finally, bind at 1, UseCodeRabbit.attempt.
  rewrite (create_pending_run key o request w items Hst H).
  unfold try_catch, UseCodeRabbit.generate_and_store. unfold bind at 1.
  match goal with
  | |- context [client request ?w1] =>
      destruct (Hclient w1) as (w2 & Hc & Hl2 & Hk2 & Hn2 & Hf2 & He2 & Hs2)
  end.
  rewrite Hc. simpl in Hl2, Hk2, Hn2, Hf2, He2, Hs2.
  assert (F : LocalStorageAdapter.find (hook_id w) (reports_of key w2)
              = Some (hook_record request w)).
  { unfold reports_of at 1. rewrite Hl2, getItem_setItem.
    now apply find_hook_record. }
  destruct (handle_failure_quiet key o (clock w (clock_reads w)) (hook_id w)
              err w2 _ (hook_record request w) Hst Hquiet eq_refl Hl2 F)
    as (w3 & Hh & Hl3 & Hf3 & Hs3 & He3).
  rewrite Hh. simpl setIsGenerating.
  eexists. split; [reflexivity|].
  split.
  { erewrite get_run by (simpl; exact Hl3).
    unfold reports_of at 1. simpl localStorage. rewrite Hl3, getItem_setItem.
    erewrite find_assign; [| reflexivity | exact F].
    now rewrite Hk2, Hn2. }
  simpl. rewrite Hf3, Hs3, He3, Hf2, Hs2, He2. repeat split.
Qed.

Lemma unconfigured_client_quiet host fetch o request w1 :
  Client.isConfigured
    (Client.createCodeRabbitClient host
       (Some (Client.CodeRabbitClientConfig.mk
                (UseCodeRabbit.Options.apiKey o) None None))) = false ->
  UseCodeRabbit.hook_client host fetch (Some o) request w1
  = (Throw (new_Error Client.not_configured), w1).
Proof.
  intros H. unfold UseCodeRabbit.hook_client, UseCodeRabbit.field, Client.generateReport.
  now rewrite H.
Qed.

(** X18.  The hook without an API key.  When the client the hook builds is not
    configured (no key in the options nor in the environment, or an empty
    one), with the localStorage adapter in a browser, a fresh id and an
    error callback, if any, that returns: [generateReport] resolves to
    null; the record it created is read back as failed, with the
    "CODERABBIT_API_KEY not configured" message as its error; the error
    callback got that message; and no request was sent. *)
Theorem generateReport_without_key host fetch key o request w items :
  Client.isConfigured
    (Client.createCodeRabbitClient host
       (Some (Client.CodeRabbitClientConfig.mk
                (UseCodeRabbit.Options.apiKey o) None None))) = false ->
  UseCodeRabbit.Options.storage o = Some (LocalStorageAdapter.adapter key) ->
  localStorage w = Some items ->
  LocalStorageAdapter.find (hook_id w) (reports_of key w) = None ->
  (forall cb, UseCodeRabbit.Options.onError o = Some cb ->
     forall w1, exists w2, cb Client.not_configured w1 = (Normal tt, w2) /\ quiet w1 w2) ->
  exists w' r,
    UseCodeRabbit.generateReport (UseCodeRabbit.hook_client host fetch (Some o))
      (Some o) request w = (Normal None, w') /\
    LocalStorageAdapter.get key (hook_id w) w' = (Normal (Some r), w') /\
    StoredReport.status r = failed /\
    StoredReport.error r = Some Client.not_configured /\
    fetches (events w') = fetches (events w) /\
    onError_calls (events w')
      = (onError_calls (events w)
         ++ if is_some (UseCodeRabbit.Options.onError o)
            then [Client.not_configured] else [])%list.
Proof.
  intros Hcfg Hst H Hfresh Hquiet.
  destruct (generateReport_failure_run key o
              (UseCodeRabbit.hook_client host fetch (Some o)) request
              (new_Error Client.not_configured) w items Hst H Hfresh)
    as (w' & Hg & Hget & Hf & _ & He).
  - intros w1. exists w1. split; [now apply unconfigured_client_quiet|].
    repeat split.
  - exact Hquiet.
  - eexists w', _. split; [exact Hg|]. split; [exact Hget|].
    repeat split; assumption.
Qed.

Lemma generateReport_without_key_witness :
  let o := UseCodeRabbit.Options.mk None
             (Some (LocalStorageAdapter.adapter LocalStorageAdapter.default_key))
             None None in
  exists w' r,
    UseCodeRabbit.generateReport
      (UseCodeRabbit.hook_client no_host (answering 200 (ResultBody sprint_results)) (Some o))
      (Some o) january browser = (Normal None, w') /\
    LocalStorageAdapter.get LocalStorageAdapter.default_key (hook_id browser) w'
      = (Normal (Some r), w') /\
    StoredReport.status r = failed /\
    StoredReport.error r = Some Client.not_configured /\
    fetches (events w') = [] /\
    onError_calls (events w') = [].
Proof.
  intros o.
  apply (generateReport_without_key no_host (answering 200 (ResultBody sprint_results))
           LocalStorageAdapter.default_key o january browser []).
  - reflexivity.
  - reflexivity.
  - reflexivity.
  - reflexivity.
  - intros cb [=].
Defined.

Lemma reports_of_stored key w l items :
  localStorage w = Some (setItem key l items) -> reports_of key w = l.
Proof. intros H. unfold reports_of. now rewrite H, getItem_setItem. Qed.

(** The [try] block after the pending step, up to the success callback. *)
Lemma generate_and_store_run key o client start id request w1 w2 rs items2 r :
  UseCodeRabbit.Options.storage o = Some (LocalStorageAdapter.adapter key) ->
  truthy id = true ->
  client request w1 = (Normal rs, w2) ->
  localStorage w2 = Some items2 ->
  LocalStorageAdapter.find id (reports_of key w2) = Some r ->
  UseCodeRabbit.generate_and_store client (Some o) start (Some id) request w1
  = (match UseCodeRabbit.Options.onSuccess o with
     | Some callback => emit (EvOnSuccess (Some id)) ;; callback (Some id)
     | None => ret tt
     end ;; ret (Some id))%js
      (mkWorld
         (Some (setItem key
                  (LocalStorageAdapter.assign id
                     (LocalStorageAdapter.set_success rs
                        (clock w2 (clock_reads w2) - start))
                     (reports_of key w2)) items2))
         (clock w2) (S (clock_reads w2)) (random36 w2) (random_reads w2)
         (events w2) (isGenerating w2) (error w2)).
Proof.
  intros Hst Hid Hc H2 F.
  unfold UseCodeRabbit.generate_and_store, UseCodeRabbit.stored, UseCodeRabbit.field.
  rewrite Hst, Hid.
  unfold bind at 1. rewrite Hc.
  unfold bind at 1. unfold Date_now at 1.
  unfold bind at 1. simpl ReportStorageAdapter.updateSuccess.
  erewrite updateSuccess_found; [| exact H2 | exact F].
  reflexivity.
Qed.

(** X19.  The success path.  With the localStorage adapter in a browser, a
    fresh id, a client call that returns [rs] and a success callback, if
    any, that returns: [generateReport] resolves to the id of the record it
    created; that record is read back as completed, with results [rs], no
    error, and as [durationMs] the clock reading taken after the client
    call minus the start time; the success callback was invoked once more,
    with that id, the error callback not at all; and the error value stays
    null. *)
Theorem generateReport_records_success key o client request rs w items :
  UseCodeRabbit.Options.storage o = Some (LocalStorageAdapter.adapter key) ->
  localStorage w = Some items ->
  LocalStorageAdapter.find (hook_id w) (reports_of key w) = None ->
  (forall w1, exists w2, client request w1 = (Normal rs, w2) /\ calm w1 w2) ->
  (forall cb, UseCodeRabbit.Options.onSuccess o = Some cb ->
     forall w1, exists w2, cb (Some (hook_id w)) w1 = (Normal tt, w2) /\ calm w1 w2) ->
  exists w' r,
    UseCodeRabbit.generateReport client (Some o) request w
      = (Normal (Some (hook_id w)), w') /\
    LocalStorageAdapter.get key (hook_id w) w' = (Normal (Some r), w') /\
    StoredReport.status r = completed /\
    StoredReport.results r = rs /\
    StoredReport.error r = None /\
    StoredReport.durationMs r
      = Some (clock w (3 + clock_reads w) - clock w (clock_reads w))%Z /\
    onSuccess_calls (events w')
      = (onSuccess_calls (events w)
         ++ if is_some (UseCodeRabbit.Options.onSuccess o)
            then [Some (hook_id w)] else [])%list /\
    onError_calls (events w') = onError_calls (events w) /\
    error w' = None.
Proof.
  intros Hst H Hfresh Hclient Hcalm.
  rewrite generateReport_prelude. fold (started w).
  unfold try_finally, bind at 1, UseCodeRabbit.attempt.
  rewrite (create_pending_run key o request w items Hst H).
  unfold try_catch.
  match goal with
  | |- context [UseCodeRabbit.generate_and_store client _ _ _ request ?w1] =>
      destruct (Hclient w1) as (w2 & Hc & Hl2 & Hk2 & Hn2 & Herr2 & He2 & Hs2);
      simpl in Hl2, Hk2, Hn2, Herr2, He2, Hs2;
      assert (F : LocalStorageAdapter.find (hook_id w) (reports_of key w2)
                  = Some (hook_record request w))
        by (unfold reports_of at 1; rewrite Hl2, getItem_setItem;
            now apply find_hook_record);
      rewrite (generate_and_store_run key o client _ (hook_id w) request w1 w2 rs _
                 (hook_record request w) Hst eq_refl Hc Hl2 F)
  end.
  destruct (UseCodeRabbit.Options.onSuccess o) as [cb|] eqn:Hcb.
  - unfold bind at 1. unfold bind at 1. unfold emit at 1.
    match goal with
    | |- context [cb _ ?w3] =>
        destruct (Hcalm cb eq_refl w3) as (w4 & Hc4 & Hl4 & Hk4 & Hn4 & Herr4 & He4 & Hs4)
    end.
    rewrite Hc4. unfold ret. simpl setIsGenerating.
    simpl in Hl4, Hk4, Hn4, Herr4, He4, Hs4.
    eexists _, _. split; [reflexivity|].
    split.
    { erewrite get_run by (simpl; exact Hl4).
      erewrite reports_of_stored by (simpl; exact Hl4).
      erewrite find_assign; [reflexivity | reflexivity | exact F]. }
    simpl. rewrite Hk2, Hn2.
    rewrite onError_calls_app in He4. rewrite onSuccess_calls_app in Hs4.
    simpl in He4, Hs4. rewrite app_nil_r in He4.
    repeat split; congruence.
  - unfold bind at 1. unfold ret. simpl setIsGenerating.
    eexists _, _. split; [reflexivity|].
    split.
    { erewrite get_run by reflexivity.
      erewrite reports_of_stored by reflexivity.
      erewrite find_assign; [reflexivity | reflexivity | exact F]. }
    simpl. rewrite Hk2, Hn2, app_nil_r.
    repeat split; congruence.
Qed.

Lemma answering_client_calm options request w1 :
  UseCodeRabbit.Options.apiKey options = Some "cr-key" ->
  exists w2,
    answering_client options request w1 = (Normal sprint_results, w2) /\ calm w1 w2.
Proof.
  intros Hkey. unfold answering_client, UseCodeRabbit.hook_client, UseCodeRabbit.field.
  rewrite Hkey. eexists. split; [reflexivity|].
  unfold calm. simpl. repeat split.
  - rewrite !onError_calls_app. simpl. now rewrite !app_nil_r.
  - rewrite !onSuccess_calls_app. simpl. now rewrite !app_nil_r.
Qed.

Lemma generateReport_records_success_witness :
  let key := LocalStorageAdapter.default_key in
  let o := with_callbacks in
  exists w' r,
    UseCodeRabbit.generateReport (answering_client o) (Some o) january browser
      = (Normal (Some (hook_id browser)), w') /\
    LocalStorageAdapter.get key (hook_id browser) w' = (Normal (Some r), w') /\
    StoredReport.status r = completed /\
    StoredReport.results r = sprint_results /\
    StoredReport.error r = None /\
    StoredReport.durationMs r = Some 3%Z /\
    onSuccess_calls (events w') = [Some (hook_id browser)] /\
    onError_calls (events w') = [] /\
    error w' = None.
Proof.
  intros key o.
  apply (generateReport_records_success key o (answering_client o) january
           sprint_results browser []).
  - reflexivity.
  - reflexivity.
  - reflexivity.
  - intros w1. apply answering_client_calm. reflexivity.
  - intros cb [= <-] w1. exists w1. split; [reflexivity|]. repeat split.
Defined.

(** X20.  A success callback that throws.  With the localStorage adapter in a
    browser, a fresh id, a client call that returns [rs], a success
    callback that throws an [Error] with message [m] and an error callback,
    if any, that returns: [generateReport] resolves to null; the record,
    completed a moment before, is read back as failed with error [m], still
    holding the results [rs]; and the error callback got [m]. *)
Theorem generateReport_onSuccess_throws key o client cb request rs name m w items :
  UseCodeRabbit.Options.storage o = Some (LocalStorageAdapter.adapter key) ->
  UseCodeRabbit.Options.onSuccess o = Some cb ->
  localStorage w = Some items ->
  LocalStorageAdapter.find (hook_id w) (reports_of key w) = None ->
  (forall w1, exists w2, client request w1 = (Normal rs, w2) /\ calm w1 w2) ->
  (forall w1, exists w2, cb (Some (hook_id w)) w1 = (Throw (JsError name m), w2) /\
                         calm w1 w2) ->
  (forall cb', UseCodeRabbit.Options.onError o = Some cb' ->
     forall w1, exists w2, cb' m w1 = (Normal tt, w2) /\ quiet w1 w2) ->
  exists w' r,
    UseCodeRabbit.generateReport client (Some o) request w = (Normal None, w') /\
    LocalStorageAdapter.get key (hook_id w) w' = (Normal (Some r), w') /\
    StoredReport.status r = failed /\
    StoredReport.error r = Some m /\
    StoredReport.results r = rs /\
    onError_calls (events w')
      = (onError_calls (events w)
         ++ if is_some (UseCodeRabbit.Options.onError o) then [m] else [])%list.
Proof.
  intros Hst Hcb H Hfresh Hclient Hthrows Hquiet.
  rewrite generateReport_prelude. fold (started w).
  unfold try_finally, bind at 1, UseCodeRabbit.attempt.
  rewrite (create_pending_run key o request w items Hst H).
  unfold try_catch.
  match goal with
  | |- context [UseCodeRabbit.generate_and_store client _ _ _ request ?w1] =>
      destruct (Hclient w1) as (w2 & Hc & Hl2 & Hk2 & Hn2 & Herr2 & He2 & Hs2);
      simpl in Hl2, Hk2, Hn2, Herr2, He2, Hs2;
      assert (F : LocalStorageAdapter.find (hook_id w) (reports_of key w2)
                  = Some (hook_record request w))
        by (unfold reports_of at 1; rewrite Hl2, getItem_setItem;
            now apply find_hook_record);
      rewrite (generate_and_store_run key o client _ (hook_id w) request w1 w2 rs _
                 (hook_record request w) Hst eq_refl Hc Hl2 F)
  end.
  rewrite Hcb. unfold bind at 1. unfold bind at 1. unfold emit at 1.
  match goal with
  | |- context [cb _ ?w3] =>
      destruct (Hthrows w3) as (w4 & Hc4 & Hl4 & Hk4 & Hn4 & Herr4 & He4 & Hs4)
  end.
  rewrite Hc4. simpl in Hl4, Hk4, Hn4, Herr4, He4, Hs4.
  assert (F4 : LocalStorageAdapter.find (hook_id w) (reports_of key w4)
               = Some (LocalStorageAdapter.set_success rs
                         (clock w2 (clock_reads w2) - clock w (clock_reads w))
                         (hook_record request w))).
  { erewrite reports_of_stored by exact Hl4.
    erewrite find_assign; [reflexivity | reflexivity | exact F]. }
  destruct (handle_failure_quiet key o (clock w (clock_reads w)) (hook_id w)
              (JsError name m) w4 _ _ Hst Hquiet eq_refl Hl4 F4)
    as (w5 & Hh & Hl5 & _ & _ & He5).
  rewrite Hh. simpl setIsGenerating.
  eexists _, _. split; [reflexivity|].
  split.
  { erewrite get_run by (simpl; exact Hl5).
    erewrite reports_of_stored by (simpl; exact Hl5).
    erewrite find_assign; [reflexivity | reflexivity | exact F4]. }
  simpl. rewrite He5.
  rewrite onError_calls_app in He4. simpl in He4. rewrite app_nil_r in He4.
  rewrite He4, He2. repeat split.
Qed.

Lemma generateReport_onSuccess_throws_witness :
  let key := LocalStorageAdapter.default_key in
  let o := with_throwing_onSuccess in
  exists w' r,
    UseCodeRabbit.generateReport (answering_client o) (Some o) january browser
      = (Normal None, w') /\
    LocalStorageAdapter.get key (hook_id browser) w' = (Normal (Some r), w') /\
    StoredReport.status r = failed /\
    StoredReport.error r = Some "toast is not a function" /\
    StoredReport.results r = sprint_results /\
    onError_calls (events w') = ["toast is not a function"].
Proof.
  intros key o.
  apply (generateReport_onSuccess_throws key o (answering_client o)
           (fun _ => throw (JsError "TypeError" "toast is not a function"))
           january sprint_results "TypeError" "toast is not a function" browser []).
  - reflexivity.
  - reflexivity.
  - reflexivity.
  - reflexivity.
  - intros w1. apply answering_client_calm. reflexivity.
  - intros w1. exists w1. split; [reflexivity|]. repeat split.
  - intros cb' [= <-] w1. exists w1. split; [reflexivity|]. repeat split.
Defined.



Lemma no_storage_run options client request w rs w2 :
  UseCodeRabbit.field options UseCodeRabbit.Options.storage = None ->
  client request (started w) = (Normal rs, w2) ->
  UseCodeRabbit.generateReport client options request w
  = try_finally
      (try_catch
         (now <- Date_now ;;
          match UseCodeRabbit.field options UseCodeRabbit.Options.onSuccess with
          | Some callback => emit (EvOnSuccess None) ;; callback None
          | None => ret tt
          end ;;
          ret None)%js
         (UseCodeRabbit.handle_failure options (clock w (clock_reads w)) None))
      (setIsGenerating false) w2.
Proof.
  intros Hst H.
  rewrite generateReport_prelude. fold (started w).
  unfold try_finally at 1, bind at 1, UseCodeRabbit.attempt,
    UseCodeRabbit.create_pending.
  rewrite Hst. unfold ret at 1.
  unfold try_catch at 1, UseCodeRabbit.generate_and_store, UseCodeRabbit.stored.
  rewrite Hst. unfold bind at 1. rewrite H.
  reflexivity.
Qed.

(** X22.  Without storage the results go nowhere.  With no storage adapter,
    two client calls that return different results and leave the same world
    make [generateReport] end in the same world with the same result: the
    array the client returned is neither stored nor handed to a callback
    nor returned. *)
Theorem generateReport_drops_results options client1 client2 request w rs1 rs2 w2 :
  UseCodeRabbit.field options UseCodeRabbit.Options.storage = None ->
  client1 request (started w) = (Normal rs1, w2) ->
  client2 request (started w) = (Normal rs2, w2) ->
  UseCodeRabbit.generateReport client1 options request w
  = UseCodeRabbit.generateReport client2 options request w.
Proof.
  intros Hst H1 H2.
  rewrite (no_storage_run options client1 request w rs1 w2 Hst H1).
  now rewrite (no_storage_run options client2 request w rs2 w2 Hst H2).
Qed.

Lemma generateReport_drops_results_witness :
  UseCodeRabbit.generateReport (fun _ => ret sprint_results) None january browser
  = UseCodeRabbit.generateReport (fun _ => ret []) None january browser.
Proof.
  apply (generateReport_drops_results None (fun _ => ret sprint_results)
           (fun _ => ret []) january browser sprint_results [] (started browser)).
  - reflexivity.
  - reflexivity.
  - reflexivity.
Defined.

(* ------------------------------------------------------------------ *)
(** ** The server actions *)

(** X23.  The action never throws.  Whatever the environment, the
    transport and the request, [generateReportAction] returns normally.
    When the client built from the environment returns [d], the result is
    [{ data: d }], without [error]; when that client throws, the
    unconfigured one included, the result has an [error] string and no
    [data]. *)
Theorem generateReportAction_never_throws host fetch request w :
  exists r w',
    Actions.generateReportAction host fetch request w = (Normal r, w') /\
    match fst (Client.generateReport fetch (Client.createCodeRabbitClient host None)
                 request w) with
    | Normal d => r = Actions.ActionResult.mk (Some d) None
    | Throw _ =>
        Actions.ActionResult.data r = None /\
        is_some (Actions.ActionResult.error r) = true
    end.
Proof.
  unfold Actions.generateReportAction, try_catch.
  destruct (Client.isConfigured (Client.createCodeRabbitClient host None)) eqn:C; simpl.
  - unfold bind.
    destruct (Client.generateReport fetch (Client.createCodeRabbitClient host None)
                request w) as [[d|e] w'] eqn:G; simpl.
    + eexists _, _. split; reflexivity.
    + eexists _, _. split; [reflexivity|]. split; reflexivity.
  - eexists _, _. split; [reflexivity|].
    unfold Client.generateReport. rewrite C. simpl. split; reflexivity.
Qed.

(** X24.  The action without a key.  When [checkCodeRabbitConfig] reports that
    the API is not configured, [generateReportAction] answers with its own
    configuration message as [error], and leaves the world as it is: no
    request is sent. *)
Theorem generateReportAction_unconfigured host fetch request w :
  fst (Actions.checkCodeRabbitConfig host w) = Normal false ->
  Actions.generateReportAction host fetch request w
  = (Normal (Actions.ActionResult.mk None
               (Some "CODERABBIT_API_KEY not configured. Set the environment variable in your .env.local file.")),
     w).
Proof.
  unfold Actions.checkCodeRabbitConfig, ret. simpl. intros [= C].
  unfold Actions.generateReportAction, try_catch. now rewrite C.
Qed.

Lemma generateReportAction_unconfigured_witness :
  Actions.generateReportAction no_host (answering 200 (ResultBody sprint_results))
    january server
  = (Normal (Actions.ActionResult.mk None
               (Some "CODERABBIT_API_KEY not configured. Set the environment variable in your .env.local file.")),
     server).
Proof.
  apply (generateReportAction_unconfigured no_host). reflexivity.
Defined.

(* ------------------------------------------------------------------ *)
(** ** The client: the envelope and the timeout, in general *)

(** X26.  The envelope shape, for every nested code that is not the name of a
    member of [Object.prototype] (and when there is no nested code).  A
    configured client that gets a response outside 200-299 whose body has an
    [error] object throws an [Error] whose message is the friendly string of
    the nested code when that is UNAUTHORIZED, FORBIDDEN, TOO_MANY_REQUESTS
    or BAD_REQUEST, whatever the status and the envelope's message;
    otherwise the envelope's message, or "API request failed with status N"
    when that is empty. *)
Theorem envelope_error_surfaces fetch this request w key status e :
  Client.CodeRabbitClient.apiKey this = Some key -> key <> "" ->
  fetch (Client.endpoint this) key (JObject (Client.requestBody request))
    = Resolved (Response.mk status (TRPCErrorBody e)) ->
  ok (Response.mk status (TRPCErrorBody e)) = false ->
  match TRPCError.data (CodeRabbitTRPCErrorResponse.error e) with
  | Some d => assoc (TRPCErrorData.code d) Object_prototype = None
  | None => True
  end ->
  fst (Client.generateReport fetch this request w)
    = Throw (new_Error (claimed_envelope_message status e)).
Proof.
  intros Hkey Hne Hfetch Hok Hcode.
  rewrite (generateReport_not_ok _ _ _ _ _ _ _ Hkey Hne Hfetch Hok).
  simpl. now rewrite trpc_error_claimed.
Qed.

Lemma envelope_error_surfaces_witness :
  fst (Client.generateReport (answering 401 (TRPCErrorBody (envelope "" "NOT_FOUND")))
         sample_client january browser)
    = Throw (new_Error "API request failed with status 401").
Proof.
  apply (envelope_error_surfaces (answering 401 (TRPCErrorBody (envelope "" "NOT_FOUND")))
           sample_client january browser "cr-key" 401 (envelope "" "NOT_FOUND")).
  - reflexivity.
  - discriminate.
  - reflexivity.
  - reflexivity.
  - reflexivity.
Defined.

Lemma seconds_text_whole (s : N) :
  Client.seconds_text (1000 * s) = string_of_N s.
Proof.
  assert (Hm : ((1000 * s) mod 1000 = 0)%N)
    by (rewrite N.mul_comm; apply N.Div0.mod_mul).
  assert (Hd : ((1000 * s) / 1000 = s)%N)
    by (rewrite N.mul_comm; now apply N.div_mul).
  unfold Client.seconds_text. cbv zeta. now rewrite Hm, Hd.
Qed.

(** X27.  An aborted request.  When [fetch] rejects with an [Error] named
    AbortError, as it does once the controller's signal has fired, a
    configured client whose timeout is a whole number [s] of seconds (below
    2^53 ms) throws an [Error] with the message "CodeRabbit report
    generation timed out after [s]s", whatever the rejection's own
    message. *)
Theorem generateReport_times_out fetch this request w key m s :
  Client.CodeRabbitClient.apiKey this = Some key -> key <> "" ->
  Client.CodeRabbitClient.timeout this = (1000 * s)%N ->
  (1000 * s < 2 ^ 53)%N ->
  fetch (Client.endpoint this) key (JObject (Client.requestBody request))
    = Rejected (JsError "AbortError" m) ->
  fst (Client.generateReport fetch this request w)
    = Throw (new_Error ("CodeRabbit report generation timed out after "
                        ++ string_of_N s ++ "s")).
Proof.
  intros Hkey Hne Ht _ Hfetch.
  rewrite (generateReport_aborted _ _ _ _ _ _ Hkey Hne Hfetch).
  unfold Client.timed_out. now rewrite Ht, seconds_text_whole.
Qed.

Lemma generateReport_times_out_witness :
  fst (Client.generateReport (fun _ _ _ => Rejected AbortError)
         sample_client january browser)
    = Throw (new_Error "CodeRabbit report generation timed out after 600s").
Proof.
  apply (generateReport_times_out _ sample_client january browser "cr-key"
           "This operation was aborted" 600).
  - reflexivity.
  - discriminate.
  - reflexivity.
  - reflexivity.
  - reflexivity.
Defined.
